(** * Christmas Wonderland: transformers and route handlers

    A shallow embedding of [transformers/index.js] (string, number, date,
    boolean and pagination transformers, input and output shapers) and of
    the route handlers of [server.js] (authentication gate, wishes, todos,
    list endpoints), with the properties of the specification stated and
    proved over it.

    JavaScript values are an inductive type; strings are lists of UTF-16
    code units; numbers are IEEE 754 binary64 values ([spec_float] at
    precision 53); objects are finite maps from property names to values.
    Builtins of the runtime whose algorithm is not part of the repository
    ([Number.prototype.toString], [parseFloat], [toLowerCase], [Date]) are
    the fields of the class [Runtime]. Code that may throw returns the
    error or the value: a property read on [null] or [undefined] and the
    conversion to a string of an object without a primitive conversion
    throw a TypeError. The database is a store of rows behind an engine
    that may reject a statement that writes. *)

From Stdlib Require Import ZArith NArith Bool List Lia DecimalString.
From Stdlib Require Import Floats.SpecFloat.
From stdpp Require Import base option list gmap strings.

#[local] Set Warnings "-register-all".
#[local] Open Scope Z_scope.

(** ** Strings: lists of UTF-16 code units *)

Module JsString.

Abbreviation code_unit := N (only parsing).
Abbreviation jsstr := (list N) (only parsing).

(** A source literal, one code unit per character. *)
Definition lit (s : string) : jsstr :=
  map Ascii.N_of_ascii (String.list_ascii_of_string s).

(** [WhiteSpace] and [LineTerminator] of ECMAScript, the characters
    that [String.prototype.trim] removes. *)
Definition is_white_space (c : code_unit) : bool :=
  ((9 <=? c) && (c <=? 13) || (c =? 32) || (c =? 160) || (c =? 5760)
   || (8192 <=? c) && (c <=? 8202) || (c =? 8232) || (c =? 8233)
   || (c =? 8239) || (c =? 8287) || (c =? 12288) || (c =? 65279))%N.

Fixpoint trimStart (s : jsstr) : jsstr :=
  match s with
  | c :: s' => if is_white_space c then trimStart s' else s
  | [] => []
  end.

Definition trimEnd (s : jsstr) : jsstr := reverse (trimStart (reverse s)).

(** [s.trim()] *)
Definition trim (s : jsstr) : jsstr := trimEnd (trimStart s).

(** [s.substring(0, n)] for a number [n >= 0] given as an integer. *)
Definition substring0 (s : jsstr) (n : Z) : jsstr := take (Z.to_nat n) s.

(** [s.split(' ')] *)
Fixpoint split_space_aux (cur : jsstr) (s : jsstr) : list jsstr :=
  match s with
  | [] => [reverse cur]
  | c :: s' =>
      if (c =? 32)%N then reverse cur :: split_space_aux [] s'
      else split_space_aux (c :: cur) s'
  end.

Definition split_space (s : jsstr) : list jsstr := split_space_aux [] s.

Definition first_char (s : jsstr) : option code_unit := head s.
Definition last_char (s : jsstr) : option code_unit := last s.

End JsString.
Export JsString.

(** ** Numbers: IEEE 754 binary64 *)

Module JsNumber.

Abbreviation number := spec_float (only parsing).
Definition prec : Z := 53.
Definition emax : Z := 1024.

Definition NaN : number := S754_nan.

(** The Number value of a mathematical integer (round to nearest,
    ties to even); [neg0] is the sign given to a zero. *)
Definition of_int (neg0 : bool) (z : Z) : number :=
  binary_normalize prec emax z 0 neg0.

Definition num (z : Z) : number := of_int false z.

Definition is_nan (x : number) : bool :=
  match x with S754_nan => true | _ => false end.

(** The IEEE comparison [x <= y]: false as soon as an operand is NaN. *)
Definition num_le (x y : number) : Prop := SFleb x y = true.

Definition sub (x y : number) : number := SFsub prec emax x y.
Definition mul (x y : number) : number := SFmul prec emax x y.

(** [Math.max(a, b)]: NaN if an operand is NaN; [+0] is larger than [-0]. *)
Definition Math_max (a b : number) : number :=
  match SFcompare a b with
  | None => NaN
  | Some Lt => b
  | Some Gt => a
  | Some Eq => match a with S754_zero true => b | _ => a end
  end.

(** [Math.min(a, b)]: NaN if an operand is NaN; [-0] is smaller than [+0]. *)
Definition Math_min (a b : number) : number :=
  match SFcompare a b with
  | None => NaN
  | Some Lt => a
  | Some Gt => b
  | Some Eq => match a with S754_zero false => b | _ => a end
  end.

End JsNumber.
Export JsNumber.

(** ** Values *)

Module JsValue.

Inductive jsval :=
| VUndefined
| VNull
| VBool (b : bool)
| VNum (x : number)
| VStr (s : jsstr)
| VDate (t : number)
| VArr (items : list jsval)
| VObj (fields : gmap string jsval).

(** [!!v] *)
Definition truthy (v : jsval) : bool :=
  match v with
  | VUndefined | VNull => false
  | VBool b => b
  | VNum (S754_zero _) | VNum S754_nan => false
  | VNum _ => true
  | VStr [] => false
  | VStr _ => true
  | VDate _ | VArr _ | VObj _ => true
  end.

(** [v !== undefined] *)
Definition defined (v : jsval) : bool :=
  match v with VUndefined => false | _ => true end.

(** [a || b] *)
Definition or_else (a b : jsval) : jsval := if truthy a then a else b.

(** An error thrown by the runtime. *)
Inductive exn := TypeError.

(** [v.k] for the property names this code reads, all of them absent
    from the prototypes of strings, numbers, booleans, arrays and dates:
    a read on [null] or [undefined] throws. *)
Definition get (v : jsval) (k : string) : exn + jsval :=
  match v with
  | VUndefined | VNull => inl TypeError
  | VObj fields => inr (default VUndefined (fields !! k))
  | _ => inr VUndefined
  end.

(** The value that [v.k] has when the read does not throw. *)
Definition prop (v : jsval) (k : string) : jsval :=
  match get v k with
  | inr x => x
  | inl _ => VUndefined
  end.

(** [k in v] for an own property of an object. *)
Definition has_key (k : string) (v : jsval) : bool :=
  match v with
  | VObj fields => bool_decide (is_Some (fields !! k))
  | _ => false
  end.

(** [[s1, ..., sn].includes(v)] for an array of string literals:
    SameValueZero never identifies a string with a value of another type. *)
Definition includes (allowed : list jsstr) (v : jsval) : bool :=
  match v with
  | VStr s => bool_decide (s ∈ allowed)
  | _ => false
  end.

(** An object literal [{k1: v1, ..., kn: vn}]. *)
Definition obj (fields : list (string * jsval)) : jsval :=
  VObj (list_to_map fields).

(** [o.k = v] on an object under construction. *)
Definition set_prop (o : gmap string jsval) (k : string) (v : jsval)
  : gmap string jsval := <[k := v]> o.

End JsValue.
Export JsValue.

(** Code that may throw: the error, or the value. *)
Abbreviation throws A := (exn + A)%type (only parsing).

Definition bind {A B} (m : throws A) (k : A -> throws B) : throws B :=
  match m with
  | inl e => inl e
  | inr a => k a
  end.

Notation "'let*' x ':=' m 'in' k" := (bind m (λ x, k))
  (at level 10, x name, m at level 100, k at level 200).

(** ** Builtins of the runtime *)

Class Runtime := {
  (** [Number.prototype.toString], radix 10 *)
  Number_toString : number -> jsstr;
  (** [Date.prototype.toString] *)
  Date_toString : number -> jsstr;
  (** [parseFloat] on a string *)
  String_parseFloat : jsstr -> number;
  (** [String.prototype.toLowerCase] *)
  toLowerCase : jsstr -> jsstr;
  (** the time value of [new Date(v)]; [None] when the constructor throws *)
  Date_new : jsval -> option number;
  (** [Date.prototype.toISOString] at a time value that is not NaN *)
  Date_toISOString : number -> jsstr
}.

Module JsGlobal.
Section WithRuntime.
Context `{Runtime}.

(** [ToString(v)], which throws a TypeError on an object that has no
    primitive conversion.

    A plain object inherits [Object.prototype.toString] and prints as
    [[object Object]], unless it has a [toString] property of its own:
    no value of [jsval] is callable, so that property hides the inherited
    method, [valueOf] returns the object itself (or is hidden the same
    way), and the conversion throws. An array is joined with commas,
    [null] and [undefined] elements printing as the empty string, and
    throws when an element does. *)
Fixpoint ToString (v : jsval) : throws jsstr :=
  match v with
  | VStr s => inr s
  | VUndefined => inr (lit "undefined")
  | VNull => inr (lit "null")
  | VBool true => inr (lit "true")
  | VBool false => inr (lit "false")
  | VNum x => inr (Number_toString x)
  | VDate t => inr (Date_toString t)
  | VArr items =>
      (fix join (items : list jsval) : throws jsstr :=
         match items with
         | [] => inr []
         | item :: rest =>
             let* first :=
               match item with
               | VUndefined | VNull => inr []
               | _ => ToString item
               end in
             match rest with
             | [] => inr first
             | _ => let* others := join rest in
                    inr (first ++ lit "," ++ others)
             end
         end) items
  | VObj fields =>
      if bool_decide (is_Some (fields !! "toString")) then inl TypeError
      else inr (lit "[object Object]")
  end.

(** The value of a digit in [parseInt]: [0-9], [a-z], [A-Z]. *)
Definition digit_value (c : code_unit) : option Z :=
  if ((48 <=? c) && (c <=? 57))%N then Some (Z.of_N c - 48)
  else if ((97 <=? c) && (c <=? 122))%N then Some (Z.of_N c - 87)
  else if ((65 <=? c) && (c <=? 90))%N then Some (Z.of_N c - 55)
  else None.

(** The mathematical integer of the longest prefix of radix-[R] digits;
    [acc] is [None] until a digit has been read. *)
Fixpoint parse_digits (R : Z) (acc : option Z) (s : jsstr) : option Z :=
  match s with
  | c :: s' =>
      match digit_value c with
      | Some d =>
          if d <? R then parse_digits R (Some (default 0 acc * R + d)) s'
          else acc
      | None => acc
      end
  | [] => acc
  end.

(** [parseInt(string, radix)] on a string; [radix] is [None] for an
    absent radix. *)
Definition parseInt_string (s : jsstr) (radix : option Z) : number :=
  let s1 := trimStart s in
  let neg := bool_decide (first_char s1 = Some 45%N) in
  let s2 := if bool_decide (first_char s1 = Some 43%N) || neg
            then tail s1 else s1 in
  let R0 := default 0 radix in
  if bool_decide (R0 ≠ 0) && ((R0 <? 2) || (36 <? R0)) then NaN else
  let stripPrefix := bool_decide (R0 = 0 ∨ R0 = 16) in
  let R1 := if bool_decide (R0 = 0) then 10 else R0 in
  let hex := stripPrefix &&
             bool_decide (take 2 s2 = lit "0x" ∨ take 2 s2 = lit "0X") in
  let s3 := if hex then drop 2 s2 else s2 in
  let R := if hex then 16 else R1 in
  match parse_digits R None s3 with
  | None => NaN
  | Some z => of_int neg (if neg then - z else z)
  end.

(** [parseInt(v, radix)] *)
Definition parseInt (v : jsval) (radix : option Z) : throws number :=
  let* inputString := ToString v in
  inr (parseInt_string inputString radix).

(** [parseFloat(v)] *)
Definition parseFloat (v : jsval) : throws number :=
  let* inputString := ToString v in
  inr (String_parseFloat inputString).

End WithRuntime.
End JsGlobal.
Export JsGlobal.

(** * transformers/index.js *)

Section Transformers.
Context `{Runtime}.

(** ** stringTransformers *)

(** The class [[\x00-\x08\x0B-\x0C\x0E-\x1F\x7F]]. *)
Definition is_control (c : code_unit) : bool :=
  ((c <=? 8) || (11 <=? c) && (c <=? 12) || (14 <=? c) && (c <=? 31)
   || (c =? 127))%N.

(** [str.replace(/[\x00-\x08\x0B-\x0C\x0E-\x1F\x7F]/g, '')] *)
Definition strip_control (s : jsstr) : jsstr :=
  filter (λ c, is_control c = false) s.

Definition sanitize (str : jsval) : jsstr :=
  match str with
  | VStr s => strip_control (trim s)
  | _ => []
  end.

Definition truncate (str : jsval) (maxLength : Z) : jsstr :=
  let sanitized := sanitize str in
  if maxLength <? Z.of_nat (length sanitized)
  then substring0 sanitized maxLength
  else sanitized.

(** [s.replace(/c/g, r)] for a single character [c]. *)
Definition replace_char (c : code_unit) (r : jsstr) (s : jsstr) : jsstr :=
  flat_map (λ x, if (x =? c)%N then r else [x]) s.

Definition escapeHtml (str : jsval) : jsstr :=
  let sanitized := sanitize str in
  replace_char 39%N (lit "&#039;")
    (replace_char 34%N (lit "&quot;")
      (replace_char 62%N (lit "&gt;")
        (replace_char 60%N (lit "&lt;")
          (replace_char 38%N (lit "&amp;") sanitized)))).

(** ** numberTransformers *)

Definition toInt (value : jsval) (defaultValue : number) : throws number :=
  let* parsed := parseInt value (Some 10) in
  inr (if is_nan parsed then defaultValue else parsed).

Definition toFloat (value : jsval) (defaultValue : number) : throws number :=
  let* parsed := parseFloat value in
  inr (if is_nan parsed then defaultValue else parsed).

(** [toFloat(value)] is called without a default: [defaultValue = 0.0]. *)
Definition clamp (value : jsval) (min max : number) : throws number :=
  let* n := match value with
            | VNum x => inr x
            | _ => toFloat value (num 0)
            end in
  inr (Math_min (Math_max n min) max).

(** ** dateTransformers *)

Definition toISO (date : jsval) : jsval :=
  if negb (truthy date) then VNull else
  let d := match date with
           | VDate t => Some t
           | _ => Date_new date
           end in
  match d with
  | Some t => if is_nan t then VNull else VStr (Date_toISOString t)
  | None => VNull
  end.

(** ** booleanTransformers *)

Definition toBool (value : jsval) : bool :=
  match value with
  | VBool b => b
  | VNum x => negb (SFeqb x (num 0))
  | VStr s =>
      let lower := toLowerCase s in
      bool_decide (lower = lit "true") || bool_decide (lower = lit "1")
      || bool_decide (lower = lit "yes")
  | _ => truthy value
  end.

(** ** paginationTransformers *)

Record pagination := {
  page : number;
  limit : number;
  offset : number
}.

(** [maxLimit] is [None] for an absent argument: [maxLimit = 100]. *)
Definition normalizePagination (page limit : jsval) (maxLimit : option number)
  : throws pagination :=
  let maxLimit := default (num 100) maxLimit in
  let* parsedPage := toInt page (num 1) in
  let normalizedPage := Math_max (num 1) parsedPage in
  let* parsedLimit := toInt limit (num 20) in
  let* normalizedLimit := clamp (VNum parsedLimit) (num 1) maxLimit in
  let offset := mul (sub normalizedPage (num 1)) normalizedLimit in
  inr {| page := normalizedPage; limit := normalizedLimit; offset := offset |}.

End Transformers.

(** ** inputTransformers *)

Module inputTransformers.
Section WithRuntime.
Context `{Runtime}.

Definition userRegistration (data : jsval) : throws jsval :=
  let* username := get data "username" in
  let* email := get data "email" in
  let* password := get data "password" in
  inr (obj [("username", VStr (truncate username 50));
            ("email", VStr (toLowerCase (truncate email 100)));
            ("password", password)]).

Definition wish (data : jsval) : throws jsval :=
  let* name := get data "name" in
  let* content := get data "content" in
  let* category := get data "category" in
  let* is_anonymous := get data "is_anonymous" in
  inr (obj [("name", VStr (truncate name 100));
            ("content", VStr (truncate content 1000));
            ("category", if includes [lit "nice"; lit "naughty"] category
                         then category else VStr (lit "nice"));
            ("is_anonymous", VBool (toBool is_anonymous))]).

Definition todo (data : jsval) : throws jsval :=
  let* title := get data "title" in
  let transformed : gmap string jsval :=
    {[ "title" := VStr (truncate title 255) ]} in
  let* description := get data "description" in
  let transformed :=
    if defined description
    then set_prop transformed "description" (VStr (truncate description 1000))
    else transformed in
  let* priority := get data "priority" in
  let transformed :=
    if defined priority
    then set_prop transformed "priority"
           (if includes [lit "low"; lit "medium"; lit "high"] priority
            then priority else VStr (lit "medium"))
    else transformed in
  let* due_date := get data "due_date" in
  let transformed :=
    if defined due_date
    then set_prop transformed "due_date" due_date
    else transformed in
  let* completed := get data "completed" in
  let transformed :=
    if defined completed
    then set_prop transformed "completed" (VBool (toBool completed))
    else transformed in
  inr (VObj transformed).

Definition galleryImage (data : jsval) : throws jsval :=
  let* label := get data "label" in
  let* description := get data "description" in
  let* category := get data "category" in
  inr (obj [("label", if truthy label
                      then VStr (truncate label 100) else VNull);
            ("description", if truthy description
                            then VStr (truncate description 500) else VNull);
            ("category", if truthy category
                         then VStr (truncate category 50)
                         else VStr (lit "general"))]).

End WithRuntime.
End inputTransformers.

(** ** outputTransformers *)

Module outputTransformers.
Section WithRuntime.
Context `{Runtime}.

Definition user (userData : jsval) : throws jsval :=
  if negb (truthy userData) then inr VNull else
  let* id := get userData "id" in
  let* username := get userData "username" in
  let* email := get userData "email" in
  let* avatar := get userData "avatar" in
  let* created_at := get userData "created_at" in
  inr (obj [("id", id);
            ("username", username);
            ("email", email);
            ("avatar", or_else avatar VNull);
            ("created_at", toISO created_at)]).

Definition wish (wishData : jsval) : throws jsval :=
  if negb (truthy wishData) then inr VNull else
  let* id := get wishData "id" in
  let* name := get wishData "name" in
  let* content := get wishData "content" in
  let* category := get wishData "category" in
  let* is_anonymous := get wishData "is_anonymous" in
  let* created_at := get wishData "created_at" in
  inr (obj [("id", id);
            ("name", name);
            ("content", content);
            ("category", category);
            ("is_anonymous", VBool (toBool is_anonymous));
            ("created_at", toISO created_at)]).

Definition todo (todoData : jsval) : throws jsval :=
  if negb (truthy todoData) then inr VNull else
  let* id := get todoData "id" in
  let* title := get todoData "title" in
  let* description := get todoData "description" in
  let* completed := get todoData "completed" in
  let* priority := get todoData "priority" in
  let* due_date := get todoData "due_date" in
  let* created_at := get todoData "created_at" in
  let* updated_at := get todoData "updated_at" in
  inr (obj [("id", id);
            ("title", title);
            ("description", or_else description VNull);
            ("completed", VBool (toBool completed));
            ("priority", priority);
            ("due_date", due_date);
            ("created_at", toISO created_at);
            ("updated_at", toISO updated_at)]).

Definition timelineEvent (eventData : jsval) : throws jsval :=
  if negb (truthy eventData) then inr VNull else
  let* id := get eventData "id" in
  let* title := get eventData "title" in
  let* event_date := get eventData "event_date" in
  let* meta := get eventData "meta" in
  let* description := get eventData "description" in
  let* created_at := get eventData "created_at" in
  inr (obj [("id", id);
            ("title", title);
            ("event_date", event_date);
            ("meta", or_else meta VNull);
            ("description", or_else description VNull);
            ("created_at", toISO created_at)]).

Definition galleryImage (imageData : jsval) : throws jsval :=
  if negb (truthy imageData) then inr VNull else
  let* id := get imageData "id" in
  let* image_url := get imageData "image_url" in
  let* thumbnail_url := get imageData "thumbnail_url" in
  let* label := get imageData "label" in
  let* description := get imageData "description" in
  let* category := get imageData "category" in
  let* created_at := get imageData "created_at" in
  inr (obj [("id", id);
            ("image_url", image_url);
            ("thumbnail_url", or_else thumbnail_url image_url);
            ("label", or_else label VNull);
            ("description", or_else description VNull);
            ("category", category);
            ("created_at", toISO created_at)]).

Definition music (musicData : jsval) : throws jsval :=
  if negb (truthy musicData) then inr VNull else
  let* id := get musicData "id" in
  let* title := get musicData "title" in
  let* artist := get musicData "artist" in
  let* tag := get musicData "tag" in
  let* url := get musicData "url" in
  let* duration := get musicData "duration" in
  let* play_count := get musicData "play_count" in
  let* created_at := get musicData "created_at" in
  let* parsed_play_count := toInt play_count (num 0) in
  inr (obj [("id", id);
            ("title", title);
            ("artist", or_else artist VNull);
            ("tag", or_else tag VNull);
            ("url", or_else url VNull);
            ("duration", or_else duration VNull);
            ("play_count", VNum parsed_play_count);
            ("created_at", toISO created_at)]).

End WithRuntime.
End outputTransformers.

(** ** paginationTransformers, continued *)

Module JsMath.

(** [x / y] and [x < y] on numbers. *)
Definition div (x y : number) : number := SFdiv prec emax x y.
Definition lt (x y : number) : bool := SFltb x y.

(** [Math.ceil(x)]: the value itself when it is an integer, a zero, an
    infinity or NaN; [-0] for a value in [(-1, 0)]. *)
Definition Math_ceil (x : number) : number :=
  match x with
  | S754_finite s m e =>
      if 0 <=? e then x
      else
        let q := Z.pos m / 2 ^ (- e) in
        let r := Z.pos m mod 2 ^ (- e) in
        if s then of_int true (- q)
        else of_int false (if r =? 0 then q else q + 1)
  | _ => x
  end.

End JsMath.
Export JsMath.

Module paginationMeta.

Record t := {
  page : number;
  limit : number;
  total : number;
  totalPages : number;
  hasNextPage : bool;
  hasPreviousPage : bool
}.

End paginationMeta.

(** [createPaginationMeta(page, limit, total)] on numbers, as
    [normalizePagination] and the count of a table give them. *)
Definition createPaginationMeta (page limit total : number)
  : paginationMeta.t :=
  {| paginationMeta.page := page;
     paginationMeta.limit := limit;
     paginationMeta.total := total;
     paginationMeta.totalPages := Math_ceil (div total limit);
     paginationMeta.hasNextPage := lt (mul page limit) total;
     paginationMeta.hasPreviousPage := lt (num 1) page |}.

(** ** outputTransformers, continued *)

Module envelopes.

(** [dataArray.map(item => transformer(item))]: the first throw ends it. *)
Fixpoint map_throws (transformer : jsval -> throws jsval) (items : list jsval)
  : throws (list jsval) :=
  match items with
  | [] => inr []
  | item :: rest =>
      let* shaped := transformer item in
      let* others := map_throws transformer rest in
      inr (shaped :: others)
  end.

Definition collection (dataArray : jsval) (transformer : jsval -> throws jsval)
  : throws jsval :=
  match dataArray with
  | VArr items =>
      let* shaped := map_throws transformer items in
      inr (VArr shaped)
  | _ => inr (VArr [])
  end.

End envelopes.

(** ** Regular expressions

    The pattern of [validators.email] is built from character classes,
    concatenation and [+], and is tested between [^] and [$]: a string
    passes when the whole of it is in the language of the pattern. The
    test is by derivatives. *)

Module Regex.

Inductive regex :=
| Void
| Eps
| Class (p : code_unit -> bool)
| Cat (r1 r2 : regex)
| Alt (r1 r2 : regex)
| Star (r : regex).

(** [r+] *)
Definition Plus (r : regex) : regex := Cat r (Star r).

(** A single character. *)
Definition Chr (c : code_unit) : regex := Class (N.eqb c).

Fixpoint nullable (r : regex) : bool :=
  match r with
  | Void => false
  | Eps => true
  | Class _ => false
  | Cat r1 r2 => nullable r1 && nullable r2
  | Alt r1 r2 => nullable r1 || nullable r2
  | Star _ => true
  end.

Fixpoint deriv (c : code_unit) (r : regex) : regex :=
  match r with
  | Void | Eps => Void
  | Class p => if p c then Eps else Void
  | Cat r1 r2 =>
      if nullable r1 then Alt (Cat (deriv c r1) r2) (deriv c r2)
      else Cat (deriv c r1) r2
  | Alt r1 r2 => Alt (deriv c r1) (deriv c r2)
  | Star r1 => Cat (deriv c r1) (Star r1)
  end.

(** [/^r$/.test(s)] *)
Fixpoint test (r : regex) (s : jsstr) : bool :=
  match s with
  | [] => nullable r
  | c :: s' => test (deriv c r) s'
  end.

(** The language of a pattern. *)
Inductive matches : regex -> jsstr -> Prop :=
| matches_eps : matches Eps []
| matches_class p c : p c = true -> matches (Class p) [c]
| matches_cat r1 r2 s1 s2 :
    matches r1 s1 -> matches r2 s2 -> matches (Cat r1 r2) (s1 ++ s2)
| matches_alt_l r1 r2 s : matches r1 s -> matches (Alt r1 r2) s
| matches_alt_r r1 r2 s : matches r2 s -> matches (Alt r1 r2) s
| matches_star_nil r : matches (Star r) []
| matches_star_cons r s1 s2 :
    matches r s1 -> matches (Star r) s2 -> matches (Star r) (s1 ++ s2).

End Regex.

(** ** validators *)

(** What a validator throws: [new Error(message)], or the TypeError of a
    conversion. *)
Inductive js_error :=
| Error (message : jsstr)
| Native (e : exn).

(** [array.join(separator)] on an array of strings. *)
Fixpoint join (separator : jsstr) (items : list jsstr) : jsstr :=
  match items with
  | [] => []
  | [item] => item
  | item :: rest => item ++ separator ++ join separator rest
  end.

Module validators.
Section WithRuntime.
Context `{Runtime}.

Definition required (value : jsval) (fieldName : jsstr) : js_error + bool :=
  match value with
  | VUndefined | VNull | VStr [] =>
      inl (Error (fieldName ++ lit " is required"))
  | _ => inr true
  end.

(** The class [[^\s@]]. *)
Definition not_space_or_at (c : code_unit) : bool :=
  negb (is_white_space c) && negb (c =? 64)%N.

(** [/^[^\s@]+@[^\s@]+\.[^\s@]+$/] *)
Definition emailRegex : Regex.regex :=
  Regex.Cat (Regex.Plus (Regex.Class not_space_or_at))
    (Regex.Cat (Regex.Chr 64)
       (Regex.Cat (Regex.Plus (Regex.Class not_space_or_at))
          (Regex.Cat (Regex.Chr 46)
             (Regex.Plus (Regex.Class not_space_or_at))))).

(** [emailRegex.test(email)] converts [email] to a string. *)
Definition email (email : jsval) : js_error + bool :=
  match ToString email with
  | inl e => inl (Native e)
  | inr printed =>
      if Regex.test emailRegex printed then inr true
      else inl (Error (lit "Invalid email format"))
  end.

Definition enum (value : jsval) (allowedValues : list jsstr)
    (fieldName : jsstr) : js_error + bool :=
  if includes allowedValues value then inr true
  else inl (Error (fieldName ++ lit " must be one of: "
                   ++ join (lit ", ") allowedValues)).

End WithRuntime.
End validators.

(** * server.js *)

Module Server.

(** The payload that [jwt.sign] encodes at registration and login. *)
Record identity := {
  id : Z;
  username : jsval;
  email : jsval
}.

Record request := {
  (** [req.headers['authorization']] *)
  authorization : option jsstr;
  (** [req.params.id] *)
  params_id : jsstr;
  (** [req.query]: always an object *)
  query : gmap string jsval;
  (** [req.body] as [express.json()] and [express.urlencoded()] leave it:
      an object, [{}] for a request without a payload (an array payload
      has none of the properties read below and reads as [{}]) *)
  body : gmap string jsval;
  (** [req.user] *)
  user : option identity;
  (** the time value of [new Date()] while the request is handled *)
  now : number
}.

Definition set_user (req : request) (u : identity) : request :=
  {| authorization := authorization req; params_id := params_id req;
     query := query req; body := body req; user := Some u; now := now req |}.

(** [res.status(status).json(body)] *)
Record response := {
  status : Z;
  json : jsval
}.

Definition error_body (message : jsstr) : jsval :=
  obj [("error", VStr message)].

(** A word between double quotes, as the messages spell the allowed values. *)
Definition quoted (word : string) : jsstr := [34%N] ++ lit word ++ [34%N].

(** [res.status(401).json({ error: 'Access token required' })] *)
Definition unauthenticated : response :=
  {| status := 401; json := error_body (lit "Access token required") |}.

(** [res.status(403).json({ error: 'Invalid or expired token' })] *)
Definition forbidden : response :=
  {| status := 403; json := error_body (lit "Invalid or expired token") |}.

(** [res.status(404).json({ error: 'Todo not found' })] *)
Definition not_found : response :=
  {| status := 404; json := error_body (lit "Todo not found") |}.

(** [res.status(400).json({ error: 'Category must be "nice" or "naughty"' })] *)
Definition bad_category : response :=
  {| status := 400;
     json := error_body (lit "Category must be " ++ quoted "nice"
                         ++ lit " or " ++ quoted "naughty") |}.

(** [res.status(400).json({ error: 'No fields to update' })] *)
Definition nothing_to_update : response :=
  {| status := 400; json := error_body (lit "No fields to update") |}.

(** [res.status(400).json({ error:
      'Priority must be "low", "medium", or "high"' })] *)
Definition bad_priority : response :=
  {| status := 400;
     json := error_body (lit "Priority must be " ++ quoted "low"
                         ++ lit ", " ++ quoted "medium"
                         ++ lit ", or " ++ quoted "high") |}.

(** ** The relational store

    One list of rows per table. A row keeps each bound parameter as the
    value of its column; [todos.id] and [todos.user_id] are INT columns. *)

Record wish_row := {
  wish_id : Z;
  wish_user_id : jsval;
  wish_name : jsval;
  wish_content : jsval;
  wish_category : jsval;
  wish_is_anonymous : jsval
}.

Record todo_row := {
  todo_id : Z;
  todo_user_id : Z;
  todo_cols : gmap string jsval
}.

Record db := {
  wishes : list wish_row;
  wishes_auto_increment : Z;
  todos : list todo_row;
  (** [site_stats], keyed by [stat_date]: the counters of each day *)
  site_stats : gmap Z (gmap string Z);
  (** [CURDATE()] *)
  curdate : Z
}.

Definition set_wishes (s : db) (ws : list wish_row) (next : Z) : db :=
  {| wishes := ws; wishes_auto_increment := next; todos := todos s;
     site_stats := site_stats s; curdate := curdate s |}.

Definition set_todos (s : db) (ts : list todo_row) : db :=
  {| wishes := wishes s; wishes_auto_increment := wishes_auto_increment s;
     todos := ts; site_stats := site_stats s; curdate := curdate s |}.

Definition set_site_stats (s : db) (st : gmap Z (gmap string Z)) : db :=
  {| wishes := wishes s; wishes_auto_increment := wishes_auto_increment s;
     todos := todos s; site_stats := st; curdate := curdate s |}.

(** The row that [INSERT INTO wishes (user_id, name, content, category,
    is_anonymous) VALUES (?, ?, ?, ?, ?)] asks the engine to store. *)
Definition new_wish (s : db) (user_id name content category anon : jsval)
  : wish_row :=
  {| wish_id := wishes_auto_increment s; wish_user_id := user_id;
     wish_name := name; wish_content := content;
     wish_category := category; wish_is_anonymous := anon |}.

(** The store once the engine has accepted the row. *)
Definition store_wish (s : db) (row : wish_row) : db :=
  set_wishes s (wishes s ++ [row]) (wish_id row + 1).

(** The statements that write, as the engine receives them. The engine
    may reject each of them: a value that a column does not take
    ([name VARCHAR(100)], [title VARCHAR(255)], [due_date DATE] in strict
    mode), a foreign key without its row ([user_id]). [pool.execute] then
    rejects, and the handler's [catch] hands the error to [errorHandler].
    The connection is taken to hold: the reads of the handlers below,
    which bind a route parameter and a user id, succeed. *)
Inductive statement :=
| InsertWish (row : wish_row)
| UpsertStat (counter : string)
| UpdateTodo (updates : list (string * jsval)) (id : jsstr)
| DeleteTodo (id : jsstr).

(** [INSERT INTO site_stats (stat_date, c) VALUES (CURDATE(), 1)
    ON DUPLICATE KEY UPDATE c = c + 1] *)
Definition bump_stat (s : db) (counter : string) : db :=
  let day := default ∅ (site_stats s !! curdate s) in
  let day' := <[counter := default 0 (day !! counter) + 1]> day in
  set_site_stats s (<[curdate s := day']> (site_stats s)).

Section Handlers.
Context `{Runtime}.

(** [jwt.verify(token, jwtSecret, callback)] at the time of the request:
    the decoded payload, or [None] for an error (bad signature, expired,
    malformed). *)
Variable jwt_verify : jsstr -> option identity.

(** The engine's comparison [id = ?] of the INT column [id] with the
    string bound from the route. *)
Variable sql_id_eq : jsstr -> Z -> bool.

(** Whether the engine, in a given state, executes a statement that
    writes; when it does not, nothing is written. *)
Variable sql_executes : db -> statement -> bool.

(** [INSERT INTO wishes (user_id, name, content, category, is_anonymous)
    VALUES (?, ?, ?, ?, ?)]: the new state and [insertId], or [None] when
    the engine rejects the statement. *)
Definition insert_wish (s : db) (user_id name content category anon : jsval)
  : option (db * Z) :=
  let row := new_wish s user_id name content category anon in
  if sql_executes s (InsertWish row)
  then Some (store_wish s row, wish_id row)
  else None.

(** [INSERT INTO site_stats ... ON DUPLICATE KEY UPDATE c = c + 1], or
    [None] when the engine rejects the statement. *)
Definition upsert_stat (s : db) (counter : string) : option db :=
  if sql_executes s (UpsertStat counter)
  then Some (bump_stat s counter)
  else None.

(** ** Authentication middleware *)

(** [authHeader && authHeader.split(' ')[1]] *)
Definition bearer_token (req : request) : jsval :=
  match authorization req with
  | None => VUndefined
  | Some authHeader =>
      if truthy (VStr authHeader)
      then match split_space authHeader !! 1%nat with
           | Some token => VStr token
           | None => VUndefined
           end
      else VStr authHeader
  end.

(** What a middleware does: it answers, or it calls [next()] with the
    request it has prepared. *)
Inductive outcome :=
| Answered (res : response)
| Next (req : request).

Definition authenticateToken (req : request) : outcome :=
  let token := bearer_token req in
  if negb (truthy token) then
    Answered unauthenticated
  else
    match token with
    | VStr token =>
        match jwt_verify token with
        | None => Answered forbidden
        | Some user => Next (set_user req user)
        end
    | _ => Answered forbidden
    end.

Definition optionalAuth (req : request) : outcome :=
  let token := bearer_token req in
  match token with
  | VStr ((_ :: _) as token) =>
      match jwt_verify token with
      | Some user => Next (set_user req user)
      | None => Next req
      end
  | _ => Next req
  end.

(** A route handler: the response and the state of the store after it. *)
Definition handler := request -> db -> response * db.

(** [app.METHOD(path, middleware, handler)] *)
Definition route (middleware : request -> outcome) (h : handler) : handler :=
  λ req s,
    match middleware req with
    | Answered res => (res, s)
    | Next req' => h req' s
    end.

(** [errorHandler], reached through [next(error)] from a handler's
    [catch], outside development mode; [s] is the state of the store when
    the error is thrown. *)
Definition errorHandler (s : db) : response * db :=
  ({| status := 500;
      json := obj [("error", VStr (lit "Internal server error"));
                   ("message", VUndefined)] |}, s).

(** [try { ... } catch (error) { next(error) }] around statements that
    throw before the first write: the state at the throw is the state [s]
    at entry. A statement that the engine rejects after a write is
    answered by [errorHandler] at the state reached. *)
Definition try_catch (s : db) (m : throws (response * db)) : response * db :=
  match m with
  | inr r => r
  | inl _ => errorHandler s
  end.

(** [const { k = d } = o]: the default applies to [undefined]. *)
Definition get_default (o : jsval) (k : string) (d : jsval) : throws jsval :=
  let* v := get o k in
  inr (if defined v then v else d).

(** ** Wishes *)

(** The page, limit and offset of a list endpoint: what it binds to
    [LIMIT ? OFFSET ?] and reports under [pagination]. *)
Record window := {
  window_page : number;
  window_limit : number;
  window_offset : number
}.

(** [GET /api/wishes], from the query to the bound parameters:
    [const { category, page = 1, limit = 20 } = req.query;
     const offset = (parseInt(page) - 1) * parseInt(limit);
     params.push(parseInt(limit), offset)]. *)
Definition get_wishes_window (req : request) : throws window :=
  let* page := get_default (VObj (query req)) "page" (VNum (num 1)) in
  let* limit := get_default (VObj (query req)) "limit" (VNum (num 20)) in
  let* parsedPage := parseInt page None in
  let* parsedLimit := parseInt limit None in
  let offset := mul (sub parsedPage (num 1)) parsedLimit in
  inr {| window_page := parsedPage;
         window_limit := parsedLimit;
         window_offset := offset |}.

(** [GET /api/gallery] computes its window by the same statements. *)
Definition get_gallery_window (req : request) : throws window :=
  let* page := get_default (VObj (query req)) "page" (VNum (num 1)) in
  let* limit := get_default (VObj (query req)) "limit" (VNum (num 20)) in
  let* parsedPage := parseInt page None in
  let* parsedLimit := parseInt limit None in
  let offset := mul (sub parsedPage (num 1)) parsedLimit in
  inr {| window_page := parsedPage;
         window_limit := parsedLimit;
         window_offset := offset |}.

(** [POST /api/wishes], behind [optionalAuth]. *)
Definition post_wishes_handler : handler := λ req s,
  try_catch s (
    let* name := get (VObj (body req)) "name" in
    let* content := get (VObj (body req)) "content" in
    let* category :=
      get_default (VObj (body req)) "category" (VStr (lit "nice")) in
    let* is_anonymous :=
      get_default (VObj (body req)) "is_anonymous" (VBool false) in
    if negb (truthy name) || negb (truthy content) then
      inr ({| status := 400;
              json := error_body (lit "Name and content are required") |}, s)
    else if negb (includes [lit "nice"; lit "naughty"] category) then
      inr (bad_category, s)
    else
      let userId := match user req with
                    | Some u => VNum (num (id u))
                    | None => VNull
                    end in
      match insert_wish s userId name content category
              (VNum (num (if truthy is_anonymous then 1 else 0))) with
      | None => inr (errorHandler s)
      | Some (s1, insertId) =>
      match upsert_stat s1 "wishes_count" with
      | None => inr (errorHandler s1)
      | Some s2 =>
      inr ({| status := 201;
              json := obj [("message", VStr (lit "Wish created successfully"));
                           ("wish", obj [("id", VNum (num insertId));
                                         ("name", name);
                                         ("content", content);
                                         ("category", category);
                                         ("is_anonymous", is_anonymous);
                                         ("created_at",
                                          VStr (Date_toISOString (now req)))])]
           |}, s2)
      end
      end).

Definition post_wishes : handler := route optionalAuth post_wishes_handler.

(** ** Todos *)

(** [SELECT id FROM todos WHERE id = ? AND user_id = ?] *)
Definition select_owned (s : db) (id : jsstr) (user_id : Z) : list todo_row :=
  filter (λ r, sql_id_eq id (todo_id r) = true ∧ todo_user_id r = user_id)
         (todos s).

(** [SELECT ... FROM todos WHERE id = ?] *)
Definition select_todo (s : db) (id : jsstr) : list todo_row :=
  filter (λ r, sql_id_eq id (todo_id r) = true) (todos s).

(** The store once [UPDATE todos SET c1 = ?, ..., cn = ? WHERE id = ?]
    has been executed. *)
Definition apply_update (s : db) (updates : list (string * jsval))
    (id : jsstr) : db :=
  set_todos s
    (map (λ r, if sql_id_eq id (todo_id r)
               then {| todo_id := todo_id r; todo_user_id := todo_user_id r;
                       todo_cols :=
                         foldl (λ cols u, <[u.1 := u.2]> cols)
                               (todo_cols r) updates |}
               else r)
         (todos s)).

(** [UPDATE todos SET c1 = ?, ..., cn = ? WHERE id = ?], or [None] when
    the engine rejects the statement. *)
Definition update_todo (s : db) (updates : list (string * jsval)) (id : jsstr)
  : option db :=
  if sql_executes s (UpdateTodo updates id)
  then Some (apply_update s updates id)
  else None.

(** The store once [DELETE FROM todos WHERE id = ?] has been executed. *)
Definition apply_delete (s : db) (id : jsstr) : db :=
  set_todos s (filter (λ r, sql_id_eq id (todo_id r) = false) (todos s)).

(** [DELETE FROM todos WHERE id = ?], or [None] when the engine rejects
    the statement. *)
Definition delete_todo_row (s : db) (id : jsstr) : option db :=
  if sql_executes s (DeleteTodo id) then Some (apply_delete s id) else None.

(** A row of [todos] as the driver returns it. *)
Definition todo_object (r : todo_row) : jsval :=
  VObj (<["id" := VNum (num (todo_id r))]> (todo_cols r)).

(** [req.user.id] *)
Definition req_user_id (req : request) : throws Z :=
  match user req with
  | Some u => inr (id u)
  | None => inl TypeError
  end.

(** [PATCH /api/todos/:id], behind [authenticateToken]. *)
Definition patch_todo_handler : handler := λ req s,
  try_catch s (
    let id := params_id req in
    let* title := get (VObj (body req)) "title" in
    let* description := get (VObj (body req)) "description" in
    let* completed := get (VObj (body req)) "completed" in
    let* priority := get (VObj (body req)) "priority" in
    let* due_date := get (VObj (body req)) "due_date" in
    let* user_id := req_user_id req in
    let existing := select_owned s id user_id in
    if bool_decide (length existing = 0%nat) then
      inr (not_found, s)
    else
      let updates := [] in
      let updates :=
        if defined title then updates ++ [("title", title)] else updates in
      let updates :=
        if defined description
        then updates ++ [("description", description)] else updates in
      let updates :=
        if defined completed
        then updates ++ [("completed",
                          VNum (num (if truthy completed then 1 else 0)))]
        else updates in
      if defined priority
         && negb (includes [lit "low"; lit "medium"; lit "high"] priority)
      then
        inr (bad_priority, s)
      else
      let updates :=
        if defined priority
        then updates ++ [("priority", priority)] else updates in
      let updates :=
        if defined due_date
        then updates ++ [("due_date", due_date)] else updates in
      if bool_decide (length updates = 0%nat) then
        inr (nothing_to_update, s)
      else
        match update_todo s updates id with
        | None => inr (errorHandler s)
        | Some s1 =>
        let updated := select_todo s1 id in
        inr ({| status := 200;
                json := obj [("message",
                              VStr (lit "Todo updated successfully"));
                             ("todo",
                              match updated !! 0%nat with
                              | Some r => todo_object r
                              | None => VUndefined
                              end)] |}, s1)
        end).

Definition patch_todo : handler := route authenticateToken patch_todo_handler.

(** [DELETE /api/todos/:id], behind [authenticateToken]. *)
Definition delete_todo_handler : handler := λ req s,
  try_catch s (
    let id := params_id req in
    let* user_id := req_user_id req in
    let existing := select_owned s id user_id in
    if bool_decide (length existing = 0%nat) then
      inr (not_found, s)
    else
      match delete_todo_row s id with
      | None => inr (errorHandler s)
      | Some s1 =>
      inr ({| status := 200;
              json := obj [("message",
                            VStr (lit "Todo deleted successfully"))] |}, s1)
      end).

Definition delete_todo : handler := route authenticateToken delete_todo_handler.

End Handlers.
End Server.

(** ** Visits *)

Module Visits.
Import Server.
Section Handlers.

Variable sql_executes : db -> statement -> bool.

(** [POST /api/stats/visit] *)
Definition post_stats_visit : handler := λ req s,
  match upsert_stat sql_executes s "visit_count" with
  | None => errorHandler s
  | Some s1 =>
      ({| status := 200;
          json := obj [("message", VStr (lit "Visit recorded"))] |}, s1)
  end.

End Handlers.
End Visits.

(** * Vocabulary of the specification *)

(** A value lies in [[lo, hi]]. *)
Definition in_range (lo hi x : number) : Prop := num_le lo x /\ num_le x hi.

(** A string neither starts nor ends with white space. *)
Definition trimmed (s : jsstr) : Prop :=
  (forall c, first_char s = Some c -> is_white_space c = false)
  /\ (forall c, last_char s = Some c -> is_white_space c = false).

(** The optional fields that an output shaper writes as [field || null]:
    those of the shapers that convert nothing, and those of [music], which
    converts [play_count]. *)
Definition null_defaulted `{Runtime}
  : list ((jsval -> throws jsval) * string) :=
  [ (outputTransformers.user, "avatar");
    (outputTransformers.todo, "description");
    (outputTransformers.timelineEvent, "meta");
    (outputTransformers.timelineEvent, "description");
    (outputTransformers.galleryImage, "label");
    (outputTransformers.galleryImage, "description") ].

Definition null_defaulted_music `{Runtime}
  : list ((jsval -> throws jsval) * string) :=
  [ (outputTransformers.music, "artist");
    (outputTransformers.music, "tag");
    (outputTransformers.music, "url");
    (outputTransformers.music, "duration") ].

(** The shaper succeeds on [record] and maps a missing or falsy [k] to
    [null]. *)
Definition defaults_to_null (shaper : jsval -> throws jsval) (k : string)
    (record : jsval) : Prop :=
  exists shaped, shaper record = inr shaped
    /\ (truthy (prop record k) = false -> prop shaped k = VNull).

(** The keys of a todo patch other than [title]. *)
Definition todo_optional_keys : list string :=
  ["description"; "priority"; "due_date"; "completed"].

(** [req.body.k] *)
Definition body_field (req : Server.request) (k : string) : jsval :=
  default VUndefined (Server.body req !! k).

(** No row of [todos] has both the requested id and the given owner. *)
Definition not_owned (sql_id_eq : jsstr -> Z -> bool) (s : Server.db)
    (id : jsstr) (user_id : Z) : Prop :=
  forall r, r ∈ Server.todos s ->
            sql_id_eq id (Server.todo_id r) = true ->
            Server.todo_user_id r <> user_id.

(** * Vocabulary of the further properties *)

(** The counter of the current day, 0 before the day has a row. *)
Definition counter_today (s : Server.db) (counter : string) : Z :=
  default 0 (default ∅ (Server.site_stats s !! Server.curdate s) !! counter).

(** At most one row of [todos] matches the route parameter: [id] is the
    primary key, and the parameter denotes one number. *)
Definition id_is_key (sql_id_eq : jsstr -> Z -> bool) (s : Server.db)
    (id : jsstr) : Prop :=
  forall r1 r2, r1 ∈ Server.todos s -> r2 ∈ Server.todos s ->
    sql_id_eq id (Server.todo_id r1) = true ->
    sql_id_eq id (Server.todo_id r2) = true -> r1 = r2.

(** What [POST /api/wishes] can do to a store: reject the request and
    write nothing; fail and write nothing; store one row, with the next
    id, a name and a content that are truthy, a category of the set and a
    flag 0 or 1, and then either fail on the statistics or count the wish
    and answer 201. *)
Definition wish_outcome (s : Server.db)
    (res : Server.response * Server.db) : Prop :=
  (Server.status res.1 = 400 /\ res.2 = s)
  \/ (Server.status res.1 = 500 /\ res.2 = s)
  \/ exists row,
       Server.wish_id row = Server.wishes_auto_increment s
       /\ truthy (Server.wish_name row) = true
       /\ truthy (Server.wish_content row) = true
       /\ (Server.wish_category row = VStr (lit "nice")
           \/ Server.wish_category row = VStr (lit "naughty"))
       /\ (Server.wish_is_anonymous row = VNum (num 0)
           \/ Server.wish_is_anonymous row = VNum (num 1))
       /\ (Server.status res.1 = 500 /\ res.2 = Server.store_wish s row
           \/ Server.status res.1 = 201
              /\ res.2 = Server.bump_stat (Server.store_wish s row)
                           "wishes_count").


(** [req.user ? req.user.id : null] *)
Definition wish_owner (req : Server.request) : jsval :=
  match Server.user req with
  | Some u => VNum (num (Server.id u))
  | None => VNull
  end.

(** The characters that [escapeHtml] replaces, other than [&]. *)
Definition markup (c : code_unit) : bool :=
  ((c =? 60) || (c =? 62) || (c =? 34) || (c =? 39))%N.

(** * Sample collaborators

    A runtime, a token verifier, an engine and a store for the closed
    examples. The runtime is exact on the domain the examples use: ASCII
    letters, integers of magnitude at most 2^53; it parses no date and
    prints every date as the epoch. *)

Module Sample.

Definition ascii_lower (c : code_unit) : code_unit :=
  if ((65 <=? c) && (c <=? 90))%N then (c + 32)%N else c.

(** The integer that a number denotes, when it denotes one. *)
Definition integer_of (x : number) : option Z :=
  match x with
  | S754_zero _ => Some 0
  | S754_finite s m e =>
      if 0 <=? e then Some (cond_Zopp s (Z.pos m * 2 ^ e))
      else if Z.pos m mod 2 ^ (- e) =? 0
           then Some (cond_Zopp s (Z.pos m / 2 ^ (- e)))
           else None
  | _ => None
  end.

Definition decimal (z : Z) : jsstr :=
  lit (DecimalString.NilZero.string_of_int (Z.to_int z)).

Definition number_to_string (x : number) : jsstr :=
  match x with
  | S754_nan => lit "NaN"
  | S754_infinity s => if s then lit "-Infinity" else lit "Infinity"
  | _ => match integer_of x with
         | Some z => decimal z
         | None => []
         end
  end.

Definition runtime : Runtime := {|
  Number_toString := number_to_string;
  Date_toString := λ _, lit "Thu Jan 01 1970 00:00:00 GMT+0000";
  String_parseFloat := λ s, parseInt_string s (Some 10);
  toLowerCase := map ascii_lower;
  Date_new := λ _, None;
  Date_toISOString := λ _, lit "1970-01-01T00:00:00.000Z"
|}.

Definition alice : Server.identity :=
  {| Server.id := 1; Server.username := VStr (lit "alice");
     Server.email := VStr (lit "alice@example.com") |}.

Definition bob : Server.identity :=
  {| Server.id := 2; Server.username := VStr (lit "bob");
     Server.email := VStr (lit "bob@example.com") |}.

(** A verifier that knows two tokens. *)
Definition jwt_verify (token : jsstr) : option Server.identity :=
  if bool_decide (token = lit "token.of.alice") then Some alice
  else if bool_decide (token = lit "token.of.bob") then Some bob
  else None.

(** The engine's comparison on strings of decimal digits. *)
Definition sql_id_eq (param : jsstr) (column : Z) : bool :=
  bool_decide (parse_digits 10 None param = Some column).

(** An engine that enforces [name VARCHAR(100)] on the rows of [wishes]
    and executes every other statement. *)
Definition sql_executes (s : Server.db) (st : Server.statement) : bool :=
  match st with
  | Server.InsertWish row =>
      match Server.wish_name row with
      | VStr name => bool_decide (length name <= 100)%nat
      | _ => true
      end
  | _ => true
  end.

(** A store that holds one todo, of alice. *)
Definition store : Server.db :=
  {| Server.wishes := [];
     Server.wishes_auto_increment := 1;
     Server.todos :=
       [ {| Server.todo_id := 7; Server.todo_user_id := 1;
            Server.todo_cols :=
              {[ "title" := VStr (lit "Buy gifts");
                 "completed" := VNum (num 0) ]} |} ];
     Server.site_stats := ∅;
     Server.curdate := 20447 |}.

Definition request_of (authorization : option jsstr) (id : jsstr)
    (query body : list (string * jsval)) : Server.request :=
  {| Server.authorization := authorization;
     Server.params_id := id;
     Server.query := list_to_map query;
     Server.body := list_to_map body;
     Server.user := None;
     Server.now := num 0 |}.

(** [POST /api/wishes] with [category: "invalid"], without a token. *)
Definition wish_invalid_category : Server.request :=
  request_of None [] []
    [("name", VStr (lit "Santa")); ("content", VStr (lit "A gift"));
     ("category", VStr (lit "invalid"))].

(** [POST /api/wishes] without a category, with bob's token. *)
Definition wish_without_category : Server.request :=
  request_of (Some (lit "Bearer token.of.bob")) [] []
    [("name", VStr (lit "Santa")); ("content", VStr (lit "A gift"))].

(** [POST /api/wishes] with a name of 101 characters. *)
Definition wish_with_long_name : Server.request :=
  request_of None [] []
    [("name", VStr (replicate 101 97%N)); ("content", VStr (lit "A gift"))].

(** [PATCH /api/todos/7] with bob's token: the todo is alice's. *)
Definition patch_by_bob : Server.request :=
  request_of (Some (lit "Bearer token.of.bob")) (lit "7") []
    [("title", VStr (lit "Mine now")); ("completed", VBool true)].

(** [PATCH /api/todos/7] with alice's token. *)
Definition patch_by_alice : Server.request :=
  request_of (Some (lit "Bearer token.of.alice")) (lit "7") []
    [("completed", VBool true)].

(** The request of bob once the gate has attached him. *)
Definition patch_as_bob : Server.request := Server.set_user patch_by_bob bob.

(** [DELETE /api/todos/7] with the given [Authorization] header. *)
Definition with_header (header : option jsstr) : Server.request :=
  request_of header (lit "7") [] [].

(** The handler of [DELETE /api/todos/:id] over the sample engine. *)
Definition handler : Server.handler :=
  Server.delete_todo_handler sql_id_eq sql_executes.

(** [GET /api/wishes?page=1&limit=1000] *)
Definition list_limit1000 : Server.request :=
  request_of None []
    [("page", VStr (lit "1")); ("limit", VStr (lit "1000"))] [].

(** [GET /api/wishes?page=0&limit=-5] *)
Definition list_page0 : Server.request :=
  request_of None []
    [("page", VStr (lit "0")); ("limit", VStr (lit "-5"))] [].

(** [{toString: "x"}]: an object without a primitive conversion. *)
Definition unprintable : jsval := obj [("toString", VStr (lit "x"))].

(** A row of [music_playlist]. *)
Definition song : jsval :=
  obj [("id", VNum (num 3)); ("title", VStr (lit "Jingle Bells"));
       ("play_count", VNum (num 12))].

(** A gallery row without a thumbnail. *)
Definition image_without_thumbnail : jsval :=
  obj [("id", VNum (num 1)); ("image_url", VStr (lit "/uploads/a.jpg"));
       ("category", VStr (lit "tree"))].

(** The record of the specification's example for [output.user]. *)
Definition user_record : jsval :=
  obj [("id", VNum (num 1)); ("username", VStr (lit "a"));
       ("email", VStr (lit "a@b.com")); ("password_hash", VStr (lit "x"));
       ("created_at", VDate (num 0))].

End Sample.

(** * Further sample requests *)

Module Fixtures.

(** A store with a todo of alice and a todo of bob. *)
Definition two_todos : Server.db :=
  Server.set_todos Sample.store
    [ {| Server.todo_id := 7; Server.todo_user_id := 1;
         Server.todo_cols := {[ "title" := VStr (lit "Buy gifts") ]} |};
      {| Server.todo_id := 8; Server.todo_user_id := 2;
         Server.todo_cols := {[ "title" := VStr (lit "Wrap gifts") ]} |} ].

(** [PATCH /api/todos/8] by bob, once the gate has attached him. *)
Definition patch_8_as_bob : Server.request :=
  Server.set_user
    (Sample.request_of (Some (lit "Bearer token.of.bob")) (lit "8") []
       [("completed", VBool true)])
    Sample.bob.

(** [PATCH /api/todos/7] by alice with a priority out of the set. *)
Definition patch_7_urgent : Server.request :=
  Server.set_user
    (Sample.request_of (Some (lit "Bearer token.of.alice")) (lit "7") []
       [("priority", VStr (lit "urgent"))])
    Sample.alice.

(** [DELETE /api/todos/7] by alice and by bob. *)
Definition delete_7_as_alice : Server.request :=
  Server.set_user (Sample.with_header (Some (lit "Bearer token.of.alice")))
    Sample.alice.

Definition delete_7_as_bob : Server.request :=
  Server.set_user (Sample.with_header (Some (lit "Bearer token.of.bob")))
    Sample.bob.

(** A registration, a todo and a gallery image as a client sends them. *)
Definition registration : jsval :=
  obj [("username", VStr (lit "  Santa  "));
       ("email", VStr (lit "Santa@NorthPole.COM"));
       ("password", VStr (lit " s3cret "))].

Definition todo_body : jsval :=
  obj [("title", VStr (lit "  Buy gifts "));
       ("priority", VStr (lit "urgent"));
       ("due_date", VStr (lit "2025-12-24"))].

Definition image_body : jsval := obj [("label", VStr (lit " Tree "))].

End Fixtures.

(** * Properties *)

(** ** The order of numbers *)

Section NumberOrder.

Lemma SFcompare_antisym (a b : number) (c : comparison) :
  SFcompare a b = Some c -> SFcompare b a = Some (CompOpp c).
Proof.
  destruct a as [sa|sa| |sa ma ea], b as [sb|sb| |sb mb eb]; simpl;
    try discriminate; intros [= <-];
    try (destruct sa; try destruct sb; reflexivity);
    try (destruct sb; reflexivity).
  destruct sa, sb; simpl; try reflexivity.
  all: rewrite (Z.compare_antisym ea eb); destruct (ea ?= eb); simpl;
    try reflexivity.
  - rewrite CompOpp_involutive. f_equal.
    exact (Pos.compare_cont_antisym mb ma Eq).
  - f_equal. exact (eq_sym (Pos.compare_cont_antisym ma mb Eq)).
Qed.

Lemma SFcompare_refl (a : number) :
  is_nan a = false -> SFcompare a a = Some Eq.
Proof.
  destruct a as [s|s| |s m e]; simpl; try discriminate; intros _.
  - reflexivity.
  - destruct s; reflexivity.
  - rewrite Z.compare_refl.
    replace (PosDef.Pos.compare_cont Eq m m) with Eq
      by exact (eq_sym (Pos.compare_cont_refl m Eq)).
    destruct s; reflexivity.
Qed.

Lemma SFcompare_None (a b : number) :
  SFcompare a b = None <-> is_nan a = true \/ is_nan b = true.
Proof.
  destruct a as [sa|sa| |sa ma ea], b as [sb|sb| |sb mb eb]; simpl; split;
    try discriminate; try tauto; intros [?|?]; discriminate.
Qed.

Lemma num_le_compare (a b : number) :
  num_le a b <-> SFcompare a b = Some Lt \/ SFcompare a b = Some Eq.
Proof.
  unfold num_le, SFleb. destruct (SFcompare a b) as [[]|]; split; intros Hc;
    try discriminate; try tauto; try (destruct Hc; discriminate); auto.
Qed.

Lemma num_le_not_nan (a b : number) :
  num_le a b -> is_nan a = false /\ is_nan b = false.
Proof.
  unfold num_le, SFleb. destruct a, b; simpl; try discriminate; auto.
Qed.

Lemma num_le_refl (a : number) : is_nan a = false -> num_le a a.
Proof. intros Ha. unfold num_le, SFleb. now rewrite SFcompare_refl. Qed.

Lemma num_le_nan_r (a : number) : ~ num_le a NaN.
Proof. unfold num_le, SFleb. destruct a; simpl; discriminate. Qed.

Lemma not_nan_cases (a b : number) :
  is_nan a = false -> is_nan b = false -> SFcompare a b <> None.
Proof.
  intros Ha Hb Hc. apply SFcompare_None in Hc. destruct Hc; congruence.
Qed.

Lemma Math_max_not_nan (a b : number) :
  is_nan a = false -> is_nan b = false -> is_nan (Math_max a b) = false.
Proof.
  intros Ha Hb. unfold Math_max.
  destruct (SFcompare a b) as [[]|] eqn:E; try assumption.
  - destruct a as [[]| | |]; assumption.
  - now apply not_nan_cases in E.
Qed.

Lemma Math_max_ge_r (a b : number) :
  is_nan a = false -> is_nan b = false -> num_le b (Math_max a b).
Proof.
  intros Ha Hb. unfold Math_max.
  destruct (SFcompare a b) as [[]|] eqn:E.
  - apply SFcompare_antisym in E. simpl in E.
    destruct a as [[]| | |];
      first [ apply num_le_refl; assumption
            | apply num_le_compare; right; exact E ].
  - apply num_le_refl; assumption.
  - apply SFcompare_antisym in E. apply num_le_compare; auto.
  - now apply not_nan_cases in E.
Qed.

Lemma Math_max_ge_l (a b : number) :
  is_nan a = false -> is_nan b = false -> num_le a (Math_max a b).
Proof.
  intros Ha Hb. unfold Math_max.
  destruct (SFcompare a b) as [[]|] eqn:E.
  - destruct a as [[]| | |];
      first [ apply num_le_refl; assumption
            | apply num_le_compare; right; exact E ].
  - apply num_le_compare; auto.
  - apply num_le_refl; assumption.
  - now apply not_nan_cases in E.
Qed.

Lemma Math_min_le_r (a b : number) :
  is_nan a = false -> is_nan b = false -> num_le (Math_min a b) b.
Proof.
  intros Ha Hb. unfold Math_min.
  destruct (SFcompare a b) as [[]|] eqn:E.
  - destruct a as [[]| | |];
      first [ apply num_le_refl; assumption
            | apply num_le_compare; right; exact E ].
  - apply num_le_compare; auto.
  - apply num_le_refl; assumption.
  - now apply not_nan_cases in E.
Qed.

Lemma Math_min_glb (lo a b : number) :
  num_le lo a -> num_le lo b -> num_le lo (Math_min a b).
Proof.
  intros Ha Hb. unfold Math_min.
  destruct (SFcompare a b) as [[]|] eqn:E; try assumption.
  - destruct a as [[]| | |]; assumption.
  - apply num_le_not_nan in Ha, Hb. apply not_nan_cases in E; tauto.
Qed.

(** A number that is not NaN is bounded into [[lo, hi]]. *)
Lemma bound_in_range (n lo hi : number) :
  is_nan n = false -> num_le lo hi ->
  in_range lo hi (Math_min (Math_max n lo) hi).
Proof.
  intros Hn Hle. destruct (num_le_not_nan _ _ Hle) as [Hlo Hhi]. split.
  - apply Math_min_glb; [apply Math_max_ge_r|]; assumption.
  - apply Math_min_le_r; [apply Math_max_not_nan|]; assumption.
Qed.

Lemma Math_max_self (a : number) : Math_max a a = a.
Proof.
  destruct (is_nan a) eqn:Ha.
  - destruct a; try discriminate. reflexivity.
  - unfold Math_max. rewrite (SFcompare_refl a Ha). now destruct a as [[]| | |].
Qed.

Lemma SFcompare_zero_Eq (s : bool) (b : number) :
  SFcompare (S754_zero s) b = Some Eq -> exists s', b = S754_zero s'.
Proof.
  destruct b as [s'|[]| |[] m e]; simpl; try discriminate. eauto.
Qed.

Lemma Math_max_nan_inv (a b : number) :
  is_nan (Math_max a b) = false -> is_nan a = false /\ is_nan b = false.
Proof. destruct a, b; simpl; try discriminate; auto. Qed.

(** [Math.max(n, lo)] is a fixed point of [Math.max(_, lo)]. *)
Lemma Math_max_absorb (n lo : number) :
  Math_max (Math_max n lo) lo = Math_max n lo.
Proof.
  unfold Math_max at 2 3. destruct (SFcompare n lo) as [[]|] eqn:E.
  - destruct n as [[]| | |]; try (unfold Math_max; now rewrite E).
    apply Math_max_self.
  - apply Math_max_self.
  - unfold Math_max. now rewrite E.
  - reflexivity.
Qed.

Lemma Math_min_max_upper (hi lo : number) :
  is_nan hi = false -> is_nan lo = false ->
  Math_min (Math_max hi lo) hi = hi.
Proof.
  intros Hhi Hlo. unfold Math_max.
  destruct (SFcompare hi lo) as [[]|] eqn:E.
  - destruct hi as [[]| | |];
      try (unfold Math_min; rewrite (SFcompare_refl _ Hhi); reflexivity).
    destruct (SFcompare_zero_Eq _ _ E) as [[] ->]; reflexivity.
  - unfold Math_min. rewrite (SFcompare_antisym _ _ _ E). reflexivity.
  - unfold Math_min. rewrite (SFcompare_refl _ Hhi).
    now destruct hi as [[]| | |].
  - now apply not_nan_cases in E.
Qed.

(** Bounding twice is bounding once, NaN and the signs of zero included. *)
Lemma bound_idempotent (n lo hi : number) :
  Math_min (Math_max (Math_min (Math_max n lo) hi) lo) hi
  = Math_min (Math_max n lo) hi.
Proof.
  pose proof (Math_max_absorb n lo) as Hfix.
  set (m := Math_max n lo) in *.
  assert (Hupper : SFcompare m hi <> None ->
                   Math_min (Math_max hi lo) hi = hi).
  { intros Hc.
    assert (Hm : is_nan m = false)
      by (destruct m; try reflexivity; now destruct Hc).
    assert (Hhi : is_nan hi = false)
      by (destruct m, hi; try reflexivity; now destruct Hc).
    destruct (Math_max_nan_inv n lo Hm) as [_ Hlo].
    now apply Math_min_max_upper. }
  unfold Math_min at 2 3. destruct (SFcompare m hi) as [[]|] eqn:E.
  - destruct m as [[]| | |] eqn:Em;
      try (rewrite Hfix; unfold Math_min; rewrite E; reflexivity).
    now apply Hupper.
  - rewrite Hfix. unfold Math_min. now rewrite E.
  - now apply Hupper.
  - reflexivity.
Qed.

End NumberOrder.

(** ** [trim] and [sanitize] *)

Section Trim.

Lemma trimStart_head (s : jsstr) (c : code_unit) :
  first_char (trimStart s) = Some c -> is_white_space c = false.
Proof.
  induction s as [|x s IH]; simpl; [discriminate|].
  destruct (is_white_space x) eqn:Hx; [exact IH|].
  simpl. intros [= <-]. exact Hx.
Qed.

Lemma trimStart_fixed (s : jsstr) :
  (forall c, first_char s = Some c -> is_white_space c = false) ->
  trimStart s = s.
Proof.
  destruct s as [|x s]; [reflexivity|]. intros Hs. simpl.
  now rewrite (Hs x eq_refl).
Qed.

Lemma trimStart_snoc (s : jsstr) (c : code_unit) :
  is_white_space c = false -> exists s', trimStart (s ++ [c]) = s' ++ [c].
Proof.
  intros Hc. induction s as [|x s IH]; simpl.
  - rewrite Hc. now exists [].
  - destruct (is_white_space x); [exact IH|]. now exists (x :: s).
Qed.

Lemma trimStart_elem (s : jsstr) (c : code_unit) :
  c ∈ trimStart s -> c ∈ s.
Proof.
  induction s as [|x s IH]; simpl; [tauto|].
  destruct (is_white_space x); [|tauto]. intros Hc. right. now apply IH.
Qed.

Lemma trimEnd_last (s : jsstr) (c : code_unit) :
  last_char (trimEnd s) = Some c -> is_white_space c = false.
Proof.
  unfold trimEnd, last_char. rewrite last_reverse. apply trimStart_head.
Qed.

Lemma trimEnd_first (s : jsstr) :
  (forall c, first_char s = Some c -> is_white_space c = false) ->
  forall c, first_char (trimEnd s) = Some c -> is_white_space c = false.
Proof.
  intros Hs. destruct s as [|x s]; [discriminate|].
  pose proof (Hs x eq_refl) as Hx. unfold trimEnd. rewrite reverse_cons.
  destruct (trimStart_snoc (reverse s) x Hx) as [s' ->].
  rewrite reverse_snoc. simpl. now intros c [= <-].
Qed.

Lemma trimEnd_fixed (s : jsstr) :
  (forall c, last_char s = Some c -> is_white_space c = false) ->
  trimEnd s = s.
Proof.
  intros Hs. unfold trimEnd. rewrite trimStart_fixed.
  - apply reverse_involutive.
  - intros c. unfold first_char. rewrite head_reverse. apply Hs.
Qed.

Lemma trim_trimmed (s : jsstr) : trimmed (trim s).
Proof.
  split; unfold trim.
  - apply trimEnd_first. apply trimStart_head.
  - apply trimEnd_last.
Qed.

Lemma trim_fixed (s : jsstr) : trimmed s -> trim s = s.
Proof.
  intros [Hf Hl]. unfold trim. rewrite (trimStart_fixed s Hf).
  now apply trimEnd_fixed.
Qed.

Lemma trim_elem (s : jsstr) (c : code_unit) : c ∈ trim s -> c ∈ s.
Proof.
  unfold trim, trimEnd. rewrite elem_of_reverse. intros Hc.
  apply trimStart_elem in Hc. rewrite elem_of_reverse in Hc.
  apply trimStart_elem, Hc.
Qed.

Lemma strip_control_fixed (s : jsstr) :
  (forall c, c ∈ s -> is_control c = false) -> strip_control s = s.
Proof.
  intros Hs. unfold strip_control. induction s as [|x s IH]; [reflexivity|].
  rewrite filter_cons_True by (apply Hs; left).
  f_equal. apply IH. intros c Hc. apply Hs. now right.
Qed.

(** The result of [sanitize] holds no control character. *)
Lemma sanitize_no_control (str : jsval) (c : code_unit) :
  c ∈ sanitize str -> is_control c = false.
Proof.
  destruct str; simpl; try (intros Hc; now apply elem_of_nil in Hc).
  unfold strip_control. intros Hc. apply list_elem_of_filter in Hc. tauto.
Qed.

(** On a string without control characters [sanitize] is [trim]: its
    result is trimmed, and sanitizing it again changes nothing. *)
Lemma sanitize_without_control (s : jsstr) :
  (forall c, c ∈ s -> is_control c = false) ->
  sanitize (VStr s) = trim s
  /\ trimmed (sanitize (VStr s))
  /\ sanitize (VStr (sanitize (VStr s))) = sanitize (VStr s).
Proof.
  intros Hs.
  assert (Ht : forall c, c ∈ trim s -> is_control c = false).
  { intros c Hc. now apply Hs, trim_elem. }
  assert (E : sanitize (VStr s) = trim s) by (apply strip_control_fixed, Ht).
  split; [exact E|]. rewrite E. split; [apply trim_trimmed|].
  simpl. rewrite (trim_fixed _ (trim_trimmed s)). now apply strip_control_fixed.
Qed.

(** C4. [sanitize] trims before it strips: on the string U+0000, space,
    "a" nothing is trimmed (the string starts with a control character),
    the control character is then removed, and the result " a" starts
    with a space; sanitizing the result again gives "a", a different
    string. The claim asks for a result without leading white space and
    for idempotence. *)
Theorem sanitize_keeps_space_after_control :
  sanitize (VStr [0%N; 32%N; 97%N]) = [32%N; 97%N]
  /\ ~ trimmed (sanitize (VStr [0%N; 32%N; 97%N]))
  /\ sanitize (VStr (sanitize (VStr [0%N; 32%N; 97%N])))
     <> sanitize (VStr [0%N; 32%N; 97%N]).
Proof.
  split; [reflexivity|]. split.
  - intros [Hfirst _]. specialize (Hfirst 32%N eq_refl). discriminate.
  - vm_compute. discriminate.
Qed.

End Trim.

(** ** [clamp] and [normalizePagination] *)

Section Numbers.
Context `{Runtime}.

(** A value that is neither an array nor an object converts to a string:
    [ToString] throws on no string, number, boolean, date, [null] or
    [undefined]. *)
Lemma ToString_primitive (v : jsval) :
  (forall items, v <> VArr items) -> (forall fields, v <> VObj fields) ->
  exists printed, ToString v = inr printed.
Proof.
  intros Ha Ho. destruct v as [| |[]| | | |items|fields];
    try (eexists; reflexivity).
  - now destruct (Ha items).
  - now destruct (Ho fields).
Qed.

(** An object with a [toString] property of its own does not. *)
Lemma ToString_own_toString (fields : gmap string jsval) (v : jsval) :
  fields !! "toString" = Some v -> ToString (VObj fields) = inl TypeError.
Proof. intros Hk. cbn [ToString]. now rewrite Hk. Qed.

Lemma toInt_printed (value : jsval) (defaultValue : number)
    (printed : jsstr) :
  ToString value = inr printed ->
  toInt value defaultValue
  = inr (if is_nan (parseInt_string printed (Some 10)) then defaultValue
         else parseInt_string printed (Some 10)).
Proof. intros Hp. unfold toInt, parseInt. now rewrite Hp. Qed.

Lemma toInt_throws (value : jsval) (defaultValue : number) (e : exn) :
  ToString value = inl e -> toInt value defaultValue = inl e.
Proof. intros Hp. unfold toInt, parseInt. now rewrite Hp. Qed.

Lemma toInt_not_nan (value : jsval) (defaultValue n : number) :
  is_nan defaultValue = false -> toInt value defaultValue = inr n ->
  is_nan n = false.
Proof.
  intros Hd. unfold toInt. destruct (parseInt value (Some 10)) as [e|parsed];
    [discriminate|]. cbn [bind]. intros [= <-].
  destruct (is_nan parsed) eqn:E; assumption.
Qed.

Lemma toFloat_not_nan (value : jsval) (defaultValue n : number) :
  is_nan defaultValue = false -> toFloat value defaultValue = inr n ->
  is_nan n = false.
Proof.
  intros Hd. unfold toFloat. destruct (parseFloat value) as [e|parsed];
    [discriminate|]. cbn [bind]. intros [= <-].
  destruct (is_nan parsed) eqn:E; assumption.
Qed.

(** [clamp] returns on every value that converts to a string. *)
Lemma clamp_returns (value : jsval) (min max : number) (printed : jsstr) :
  ToString value = inr printed -> exists r, clamp value min max = inr r.
Proof.
  intros Hp. unfold clamp, toFloat, parseFloat. rewrite Hp. cbn [bind].
  destruct value; eexists; reflexivity.
Qed.

(** Every value other than the number NaN is clamped into [[min, max]]. *)
Lemma clamp_in_range (value : jsval) (min max r : number) :
  value <> VNum NaN -> num_le min max -> clamp value min max = inr r ->
  in_range min max r.
Proof.
  intros Hv Hle. unfold clamp.
  assert (Hn : forall n,
             match value with
             | VNum x => inr x
             | _ => toFloat value (num 0)
             end = inr n -> is_nan n = false).
  { intros n. destruct value as [| | |x| | | |];
      try (now apply toFloat_not_nan).
    intros [= <-]. destruct x; try reflexivity. now destruct Hv. }
  destruct (match value with VNum x => inr x | _ => toFloat value (num 0) end)
    as [e|n]; [discriminate|]. cbn [bind]. intros [= <-].
  apply bound_in_range; [|exact Hle]. now apply Hn.
Qed.

(** [clamp] is idempotent: clamping the result again returns it. At NaN
    both sides are NaN. *)
Lemma clamp_idempotent (value : jsval) (min max r : number) :
  clamp value min max = inr r -> clamp (VNum r) min max = inr r.
Proof.
  unfold clamp.
  destruct (match value with VNum x => inr x | _ => toFloat value (num 0) end)
    as [e|n]; [discriminate|]. cbn [bind]. intros [= <-].
  f_equal. apply bound_idempotent.
Qed.

(** C9. [clamp] returns a number argument as it is, without the NaN test
    that [toFloat] applies to the other arguments: [clamp(NaN, 1, 100)]
    is NaN, which is not within [[1, 100]], although [1 <= 100]. *)
Theorem clamp_NaN_escapes :
  clamp (VNum NaN) (num 1) (num 100) = inr NaN
  /\ num_le (num 1) (num 100)
  /\ (forall r, clamp (VNum NaN) (num 1) (num 100) = inr r ->
                ~ in_range (num 1) (num 100) r).
Proof.
  split; [reflexivity|]. split; [reflexivity|].
  intros r [= <-] [Hlo _]. now apply num_le_nan_r in Hlo.
Qed.

(** What [normalizePagination] returns on a page and a limit that convert
    to strings, when the ceiling is at least 1. *)
Lemma normalizePagination_bounds (rawPage rawLimit : jsval)
    (maxLimit : option number) (printedPage printedLimit : jsstr) :
  ToString rawPage = inr printedPage ->
  ToString rawLimit = inr printedLimit ->
  num_le (num 1) (default (num 100) maxLimit) ->
  exists p, normalizePagination rawPage rawLimit maxLimit = inr p
    /\ num_le (num 1) (page p)
    /\ in_range (num 1) (default (num 100) maxLimit) (limit p)
    /\ offset p = mul (sub (page p) (num 1)) (limit p).
Proof.
  intros Hp Hl Hmax. unfold normalizePagination.
  destruct (toInt rawPage (num 1)) as [e|parsedPage] eqn:Epage;
    [now rewrite (toInt_printed _ _ _ Hp) in Epage|].
  destruct (toInt rawLimit (num 20)) as [e|parsedLimit] eqn:Elimit;
    [now rewrite (toInt_printed _ _ _ Hl) in Elimit|].
  cbn [bind].
  destruct (clamp_returns (VNum parsedLimit) (num 1)
              (default (num 100) maxLimit) (Number_toString parsedLimit)
              eq_refl) as [normalizedLimit Eclamp].
  rewrite Eclamp. cbn [bind]. eexists. split; [reflexivity|].
  cbn [page limit offset]. split; [|split; [|reflexivity]].
  - apply Math_max_ge_l; [reflexivity|].
    exact (toInt_not_nan rawPage (num 1) _ eq_refl Epage).
  - apply (clamp_in_range (VNum parsedLimit)); [|exact Hmax|exact Eclamp].
    pose proof (toInt_not_nan rawLimit (num 20) _ eq_refl Elimit) as Hn.
    intros [= ->]. discriminate.
Qed.

(** It throws on a page or a limit that does not. *)
Lemma normalizePagination_throws (rawPage rawLimit : jsval)
    (maxLimit : option number) (e : exn) :
  ToString rawPage = inl e
  \/ (exists printed, ToString rawPage = inr printed)
     /\ ToString rawLimit = inl e ->
  normalizePagination rawPage rawLimit maxLimit = inl e.
Proof.
  unfold normalizePagination. intros [Hp|[[printed Hp] Hl]].
  - now rewrite (toInt_throws _ _ _ Hp).
  - rewrite (toInt_printed _ _ _ Hp). cbn [bind].
    now rewrite (toInt_throws _ _ _ Hl).
Qed.

End Numbers.

(** ** Input shapers *)

Section InputShapers.
Context `{Runtime}.

Lemma get_object (data : jsval) (k : string) :
  data <> VNull -> data <> VUndefined -> get data k = inr (prop data k).
Proof.
  intros Hn Hu. unfold prop. destruct data; try reflexivity; congruence.
Qed.

Lemma get_inr_object (data : jsval) (k : string) (v : jsval) :
  get data k = inr v -> data <> VNull /\ data <> VUndefined.
Proof. destruct data; simpl; intros; split; congruence. Qed.

Lemma has_key_defined (data : jsval) (k : string) :
  defined (prop data k) = true -> has_key k data = true.
Proof.
  unfold prop. destruct data; simpl; try discriminate.
  destruct (fields !! k); simpl; [reflexivity|discriminate].
Qed.

(** The keys other than [title] appear in the result of [input.todo]
    only for a body that has them. *)
Lemma todo_optional_keys_from_input (data shaped : jsval) (k : string) :
  inputTransformers.todo data = inr shaped ->
  k ∈ todo_optional_keys ->
  has_key k shaped = true -> has_key k data = true.
Proof.
  intros Htodo Hk Hshaped. apply has_key_defined.
  assert (Hobj : data <> VNull /\ data <> VUndefined).
  { unfold inputTransformers.todo in Htodo.
    destruct (get data "title") eqn:E; [discriminate|].
    exact (get_inr_object _ _ _ E). }
  destruct Hobj as [Hn Hu]. unfold inputTransformers.todo in Htodo.
  rewrite !(get_object _ _ Hn Hu) in Htodo. cbn [bind] in Htodo.
  injection Htodo as <-. unfold todo_optional_keys in Hk.
  unfold set_prop in Hshaped.
  repeat (apply elem_of_cons in Hk; destruct Hk as [->|Hk]);
    [..|now apply elem_of_nil in Hk].
  all: destruct (defined (prop data "description")),
         (defined (prop data "priority")),
         (defined (prop data "due_date")),
         (defined (prop data "completed")); try reflexivity;
       vm_compute in Hshaped; discriminate.
Qed.

(** C7. [input.todo] writes [title] before it looks at the body: the
    sparse patch [{completed: true}] comes back with a [title] key (the
    empty string) that the caller did not send. *)
Theorem todo_sparse_patch_gains_title :
  has_key "title" (obj [("completed", VBool true)]) = false
  /\ inputTransformers.todo (obj [("completed", VBool true)])
     = inr (obj [("title", VStr []); ("completed", VBool true)])
  /\ has_key "title" (obj [("title", VStr []); ("completed", VBool true)])
     = true.
Proof. repeat split; vm_compute; reflexivity. Qed.

Lemma wish_category_default (data : jsval) :
  data <> VNull -> data <> VUndefined ->
  includes [lit "nice"; lit "naughty"] (prop data "category") = false ->
  exists shaped, inputTransformers.wish data = inr shaped
    /\ prop shaped "category" = VStr (lit "nice").
Proof.
  intros Hn Hu Hc. eexists. split.
  - unfold inputTransformers.wish. rewrite !(get_object _ _ Hn Hu).
    cbn [bind]. reflexivity.
  - rewrite Hc. reflexivity.
Qed.

End InputShapers.

(** ** Output shapers *)

Section OutputShapers.
Context `{Runtime}.
Import outputTransformers.

Lemma get_truthy (v : jsval) (k : string) :
  truthy v = true -> get v k = inr (prop v k).
Proof. destruct v; try discriminate; reflexivity. Qed.

Lemma falsy_or_else (a b : jsval) : truthy a = false -> or_else a b = b.
Proof. unfold or_else. now intros ->. Qed.

Lemma prop_obj (fields : list (string * jsval)) (k : string) :
  prop (obj fields) k
  = default VUndefined ((list_to_map fields : gmap string jsval) !! k).
Proof. reflexivity. Qed.

(** Unfold a shaper on a truthy record: every read succeeds. *)
Ltac shape Hr :=
  unfold user, wish, todo, timelineEvent, galleryImage, music;
  rewrite Hr; cbn [negb]; rewrite !(get_truthy _ _ Hr); cbn [bind].

(** Read a field of a shaped object. *)
Ltac read_field :=
  rewrite prop_obj; cbn [list_to_map foldr]; simplify_map_eq.

(** C3. [output.user] returns, for every input, a value without a
    [password_hash] key: [null] for a falsy input, and otherwise an object
    whose keys are [id], [username], [email], [avatar], [created_at]. *)
Theorem user_never_exposes_password_hash (userData : jsval) :
  exists shaped, user userData = inr shaped
    /\ has_key "password_hash" shaped = false.
Proof.
  destruct (truthy userData) eqn:Hr.
  - eexists. split; [shape Hr; reflexivity|]. vm_compute. reflexivity.
  - exists VNull. unfold user. rewrite Hr. split; reflexivity.
Qed.

(** The keys of a shaped user. *)
Lemma user_keys (userData : jsval) (fields : gmap string jsval) :
  user userData = inr (VObj fields) ->
  dom fields
  = ({["id"; "username"; "email"; "avatar"; "created_at"]} : gset string).
Proof.
  destruct (truthy userData) eqn:Hr.
  - shape Hr. intros [= <-]. cbn [list_to_map foldr].
    rewrite !dom_insert_L, dom_empty_L. set_solver.
  - unfold user. rewrite Hr. discriminate.
Qed.

(** C10. Each of the six per-entity output shapers returns [null],
    without throwing, on a falsy record ([null], [undefined], [false],
    [0], NaN, the empty string). *)
Theorem output_shapers_null_on_falsy (record : jsval) :
  truthy record = false ->
  user record = inr VNull /\ wish record = inr VNull
  /\ todo record = inr VNull /\ timelineEvent record = inr VNull
  /\ galleryImage record = inr VNull /\ music record = inr VNull.
Proof.
  intros Hr. unfold user, wish, todo, timelineEvent, galleryImage, music.
  rewrite Hr. repeat split.
Qed.

(** The shapers that convert nothing never throw. *)
Lemma output_shapers_total (record : jsval) :
  Forall (fun shaper => exists shaped, shaper record = inr shaped)
         [user; wish; todo; timelineEvent; galleryImage].
Proof.
  destruct (truthy record) eqn:Hr.
  - repeat apply List.Forall_cons; try apply List.Forall_nil.
    all: eexists; shape Hr; reflexivity.
  - repeat apply List.Forall_cons; try apply List.Forall_nil.
    all: exists VNull;
      unfold user, wish, todo, timelineEvent, galleryImage;
      now rewrite Hr.
Qed.

(** [music] passes [play_count] to [toInt]: it returns on a record whose
    [play_count] converts to a string, as the numbers of the INT column
    do, and throws on a truthy record whose [play_count] does not. *)
Lemma music_returns (record : jsval) (printed : jsstr) :
  ToString (prop record "play_count") = inr printed ->
  exists shaped, music record = inr shaped.
Proof.
  intros Hp. destruct (truthy record) eqn:Hr.
  - eexists. shape Hr. rewrite (toInt_printed _ _ _ Hp). reflexivity.
  - exists VNull. unfold music. now rewrite Hr.
Qed.

Lemma music_throws (record : jsval) (e : exn) :
  truthy record = true ->
  ToString (prop record "play_count") = inl e ->
  music record = inl e.
Proof. intros Hr Hp. shape Hr. now rewrite (toInt_throws _ _ _ Hp). Qed.

(** C8 (amended). On a truthy record, each optional field that a shaper
    writes as [field || null] ([avatar] of a user, [description] of a
    todo, [meta] and [description] of a timeline event, [label] and
    [description] of a gallery image, and, for a record whose
    [play_count] converts to a string, as a stored number does, [artist],
    [tag], [url] and [duration] of a song) is [null] in the shaped output
    when it is missing or falsy in the record. The thumbnail of a gallery
    image is not among them: a missing or falsy [thumbnail_url] is
    replaced by the record's [image_url]; and [due_date] of a todo is
    copied as it is stored. *)
Theorem optional_fields_default (record : jsval) :
  truthy record = true ->
  Forall (fun '(shaper, k) => defaults_to_null shaper k record) null_defaulted
  /\ (forall printed,
        ToString (prop record "play_count") = inr printed ->
        Forall (fun '(shaper, k) => defaults_to_null shaper k record)
               null_defaulted_music)
  /\ (exists shaped, galleryImage record = inr shaped
        /\ (truthy (prop record "thumbnail_url") = false ->
            prop shaped "thumbnail_url" = prop record "image_url"))
  /\ (exists shaped, todo record = inr shaped
        /\ prop shaped "due_date" = prop record "due_date").
Proof.
  intros Hr. split; [|split; [|split]].
  - unfold null_defaulted.
    repeat apply List.Forall_cons; try apply List.Forall_nil.
    all: eexists; split; [shape Hr; reflexivity|]; intros Hk.
    all: read_field; now rewrite falsy_or_else.
  - intros printed Hp. unfold null_defaulted_music.
    repeat apply List.Forall_cons; try apply List.Forall_nil.
    all: eexists; split;
      [shape Hr; rewrite (toInt_printed _ _ _ Hp); reflexivity|]; intros Hk.
    all: read_field; now rewrite falsy_or_else.
  - eexists; split; [shape Hr; reflexivity|]; intros Hk.
    read_field. now rewrite falsy_or_else.
  - eexists; split; [shape Hr; reflexivity|]. now read_field.
Qed.

End OutputShapers.

(** ** The authentication gate and the handlers *)

Section ServerFacts.
Context `{Runtime}.
Import Server.
Variable jwt_verify : jsstr -> option identity.
Variable sql_id_eq : jsstr -> Z -> bool.
Variable sql_executes : db -> statement -> bool.

Lemma bearer_token_second (req : request) (header token : jsstr) :
  authorization req = Some header ->
  split_space header !! 1%nat = Some token -> token <> [] ->
  bearer_token req = VStr token.
Proof.
  intros Hh Ht Hne. unfold bearer_token. rewrite Hh.
  destruct header as [|c header]; [discriminate|]. cbn [truthy].
  now rewrite Ht.
Qed.

(** A token that verifies: the gate calls [next()] with the identity. *)
Lemma authenticateToken_next (req : request) (header token : jsstr)
    (u : identity) :
  authorization req = Some header ->
  split_space header !! 1%nat = Some token -> token <> [] ->
  jwt_verify token = Some u ->
  authenticateToken jwt_verify req = Next (set_user req u).
Proof.
  intros Hh Ht Hne Hv. unfold authenticateToken.
  rewrite (bearer_token_second _ _ _ Hh Ht Hne).
  destruct token; [congruence|]. cbn. now rewrite Hv.
Qed.

(** C6. Behind [authenticateToken], whatever the handler: a request
    without an [Authorization] header, or whose header has no second
    space-separated word or an empty one, is answered 401 and the handler
    does not run (the store is untouched); a request whose token
    [jwt.verify] refuses (bad signature, expired) is answered 403 in the
    same way; a request whose token verifies reaches the handler, which
    runs on a request that has the decoded identity as [req.user] and is
    otherwise the request received. *)
Theorem authenticateToken_required (h : handler) (req : request) (s : db) :
  (authorization req = None ->
   route (authenticateToken jwt_verify) h req s = (unauthenticated, s))
  /\ (forall header : jsstr,
        authorization req = Some header ->
        split_space header !! 1%nat = None
        \/ split_space header !! 1%nat = Some [] ->
        route (authenticateToken jwt_verify) h req s = (unauthenticated, s))
  /\ (forall header token : jsstr,
        authorization req = Some header ->
        split_space header !! 1%nat = Some token -> token <> [] ->
        jwt_verify token = None ->
        route (authenticateToken jwt_verify) h req s = (forbidden, s))
  /\ (forall (header token : jsstr) (u : identity),
        authorization req = Some header ->
        split_space header !! 1%nat = Some token -> token <> [] ->
        jwt_verify token = Some u ->
        exists req',
          route (authenticateToken jwt_verify) h req s = h req' s
          /\ user req' = Some u
          /\ authorization req' = authorization req
          /\ params_id req' = params_id req
          /\ query req' = query req
          /\ body req' = body req
          /\ now req' = now req).
Proof.
  unfold route. split; [|split; [|split]].
  - intros Hh. unfold authenticateToken, bearer_token. now rewrite Hh.
  - intros header Hh Ht. unfold authenticateToken, bearer_token. rewrite Hh.
    destruct header as [|c header]; [reflexivity|]. cbn [truthy].
    destruct Ht as [-> | ->]; reflexivity.
  - intros header token Hh Ht Hne Hv. unfold authenticateToken.
    rewrite (bearer_token_second _ _ _ Hh Ht Hne).
    destruct token; [congruence|]. cbn. now rewrite Hv.
  - intros header token u Hh Ht Hne Hv. exists (set_user req u).
    rewrite (authenticateToken_next _ _ _ _ Hh Ht Hne Hv).
    split; [reflexivity|]. split; [reflexivity|]. now destruct req.
Qed.

(** [optionalAuth] always calls [next()], and leaves the body alone. *)
Lemma optionalAuth_next (req : request) :
  exists req', optionalAuth jwt_verify req = Next req'
    /\ body req' = body req /\ now req' = now req.
Proof.
  unfold optionalAuth. destruct (bearer_token req) as [| | | |[|c t]| | |];
    try (exists req; repeat split; reflexivity).
  destruct (jwt_verify (c :: t)) as [u|];
    [exists (set_user req u)|exists req]; repeat split; reflexivity.
Qed.

(** The ownership query finds nothing. *)
Lemma select_owned_nil (s : db) (id : jsstr) (user_id : Z) :
  not_owned sql_id_eq s id user_id -> select_owned sql_id_eq s id user_id = [].
Proof.
  unfold not_owned, select_owned. intros Hno.
  induction (todos s) as [|r rows IH]; [reflexivity|].
  rewrite filter_cons. destruct (decide _) as [[Hid Hu]|_].
  - exfalso. apply (Hno r); [left|assumption|assumption].
  - apply IH. intros r' Hr'. apply Hno. now right.
Qed.

(** The two ways not to own a todo: there is none with this id, or the
    one with this id has another owner. *)
Lemma not_owned_absent (s : db) (id : jsstr) (user_id : Z) :
  (forall r, r ∈ todos s -> sql_id_eq id (todo_id r) = false) ->
  not_owned sql_id_eq s id user_id.
Proof. intros Hnone r Hr Hid. rewrite (Hnone r Hr) in Hid. discriminate. Qed.

Lemma not_owned_other (s : db) (id : jsstr) (owner user_id : Z) :
  (forall r, r ∈ todos s -> sql_id_eq id (todo_id r) = true ->
             todo_user_id r = owner) ->
  owner <> user_id ->
  not_owned sql_id_eq s id user_id.
Proof. intros Hown Hne r Hr Hid. now rewrite (Hown r Hr Hid). Qed.

(** C2. A PATCH on a todo by an authenticated user, when no stored todo
    has both the requested id and that user as owner (the todo belongs to
    somebody else, or there is none with this id), is answered 404
    [Todo not found], and the store after the request is the store
    before it: no statement that writes has been issued. *)
Theorem patch_todo_not_owned (req : request) (s : db) (u : identity) :
  user req = Some u ->
  not_owned sql_id_eq s (params_id req) (id u) ->
  patch_todo_handler sql_id_eq sql_executes req s = (not_found, s).
Proof.
  intros Hu Hno. unfold patch_todo_handler, req_user_id. rewrite Hu.
  cbn [get bind]. rewrite (select_owned_nil _ _ _ Hno). reflexivity.
Qed.

(** The same from the header on: user A's token verifies, the todo is
    not A's, and the route answers 404 with the store unchanged. *)
Lemma patch_todo_route_not_owned (req : request) (s : db)
    (header token : jsstr) (u : identity) :
  authorization req = Some header ->
  split_space header !! 1%nat = Some token -> token <> [] ->
  jwt_verify token = Some u ->
  not_owned sql_id_eq s (params_id req) (id u) ->
  patch_todo jwt_verify sql_id_eq sql_executes req s = (not_found, s).
Proof.
  intros Hh Ht Hne Hv Hno. unfold patch_todo, route.
  rewrite (authenticateToken_next _ _ _ _ Hh Ht Hne Hv).
  unfold patch_todo_handler, req_user_id.
  cbn [user params_id body set_user get bind].
  rewrite (select_owned_nil _ _ _ Hno). reflexivity.
Qed.

(** The owner's PATCH with a priority outside [low], [medium], [high]
    is rejected with a 400 failure, and nothing is written: here the
    enumeration is enforced, not corrected. *)
Lemma patch_todo_bad_priority (req : request) (s : db) (u : identity) :
  user req = Some u ->
  select_owned sql_id_eq s (params_id req) (id u) <> [] ->
  defined (body_field req "priority") = true ->
  includes [lit "low"; lit "medium"; lit "high"] (body_field req "priority")
  = false ->
  patch_todo_handler sql_id_eq sql_executes req s = (bad_priority, s).
Proof.
  intros Hu Hown Hd Hi. unfold patch_todo_handler, req_user_id. rewrite Hu.
  cbn [get bind]. fold (body_field req "priority").
  destruct (select_owned sql_id_eq s (params_id req) (id u)) as [|r rows];
    [congruence|].
  rewrite Hd, Hi. reflexivity.
Qed.

(** DELETE answers 404, and deletes nothing, in the case where PATCH
    does. *)
Lemma delete_todo_not_owned (req : request) (s : db) (u : identity) :
  user req = Some u ->
  not_owned sql_id_eq s (params_id req) (id u) ->
  delete_todo_handler sql_id_eq sql_executes req s = (not_found, s).
Proof.
  intros Hu Hno. unfold delete_todo_handler, req_user_id. rewrite Hu.
  cbn [bind]. rewrite (select_owned_nil _ _ _ Hno). reflexivity.
Qed.

(** [POST /api/wishes] rejects a category that is present and not in
    the set. *)
Lemma post_wishes_rejects (req : request) (s : db) :
  defined (body_field req "category") = true ->
  includes [lit "nice"; lit "naughty"] (body_field req "category") = false ->
  status (post_wishes jwt_verify sql_executes req s).1 = 400
  /\ (post_wishes jwt_verify sql_executes req s).2 = s.
Proof.
  intros Hd Hi. unfold post_wishes, route.
  destruct (optionalAuth_next req) as (req' & -> & Hb & _).
  unfold post_wishes_handler, get_default. rewrite Hb.
  cbn [get bind]. fold (body_field req "name") (body_field req "content")
    (body_field req "category"). rewrite Hd, Hi.
  destruct (negb _ || negb _); split; reflexivity.
Qed.

(** [POST /api/wishes] hands the engine a row with the category [nice]
    for an absent category. When the engine rejects the row, the answer
    is that of [errorHandler] and nothing is stored; when it accepts the
    row, the row is stored, and the answer is 201 if the statement on
    [site_stats] executes too and 500 if it does not. *)
Lemma post_wishes_defaults_absent (req : request) (s : db) :
  truthy (body_field req "name") = true ->
  truthy (body_field req "content") = true ->
  body_field req "category" = VUndefined ->
  exists row,
    wish_name row = body_field req "name"
    /\ wish_content row = body_field req "content"
    /\ wish_category row = VStr (lit "nice")
    /\ (sql_executes s (InsertWish row) = false ->
        post_wishes jwt_verify sql_executes req s = errorHandler s)
    /\ (sql_executes s (InsertWish row) = true ->
        wishes (post_wishes jwt_verify sql_executes req s).2
        = wishes s ++ [row]
        /\ (sql_executes (store_wish s row) (UpsertStat "wishes_count")
            = true ->
            status (post_wishes jwt_verify sql_executes req s).1 = 201)
        /\ (sql_executes (store_wish s row) (UpsertStat "wishes_count")
            = false ->
            status (post_wishes jwt_verify sql_executes req s).1 = 500)).
Proof.
  intros Hn Hc Hcat. unfold post_wishes, route.
  destruct (optionalAuth_next req) as (req' & -> & Hb & _).
  unfold post_wishes_handler, get_default, insert_wish, upsert_stat.
  rewrite Hb. cbn [get bind].
  fold (body_field req "name") (body_field req "content")
    (body_field req "category") (body_field req "is_anonymous").
  rewrite Hcat, Hn, Hc. cbn [defined negb orb includes].
  rewrite bool_decide_eq_true_2 by (apply elem_of_cons; now left).
  cbn [negb try_catch].
  match goal with
  | |- context [InsertWish ?r] => exists r
  end.
  split; [reflexivity|]. split; [reflexivity|]. split; [reflexivity|].
  split.
  - intros ->. reflexivity.
  - intros ->.
    destruct (sql_executes (store_wish s _) (UpsertStat "wishes_count"));
      (split; [reflexivity|]); split; intros [=]; reflexivity.
Qed.

(** C1 (amended). The wish input shaper maps every out-of-set category
    to [nice]. The [POST /api/wishes] handler of server.js does not call
    the shaper: it rejects every category that is present and out of the
    set with a 400 failure, storing nothing, and it replaces only an
    absent category by [nice]: the row that it hands the engine has the
    category [nice] and the name and content of the body; the row is
    stored when the engine accepts it, with the answer 201 when the
    statement on [site_stats] executes too, and when the engine rejects
    the row the answer is 500 and nothing is stored. *)
Theorem wish_category_policy (data : jsval) (req : request) (s : db) :
  (data <> VNull -> data <> VUndefined ->
   includes [lit "nice"; lit "naughty"] (prop data "category") = false ->
   exists shaped, inputTransformers.wish data = inr shaped
     /\ prop shaped "category" = VStr (lit "nice"))
  /\ (defined (body_field req "category") = true ->
      includes [lit "nice"; lit "naughty"] (body_field req "category")
      = false ->
      status (post_wishes jwt_verify sql_executes req s).1 = 400
      /\ (post_wishes jwt_verify sql_executes req s).2 = s)
  /\ (truthy (body_field req "name") = true ->
      truthy (body_field req "content") = true ->
      body_field req "category" = VUndefined ->
      exists row,
        wish_name row = body_field req "name"
        /\ wish_content row = body_field req "content"
        /\ wish_category row = VStr (lit "nice")
        /\ (sql_executes s (InsertWish row) = false ->
            post_wishes jwt_verify sql_executes req s = errorHandler s)
        /\ (sql_executes s (InsertWish row) = true ->
            wishes (post_wishes jwt_verify sql_executes req s).2
            = wishes s ++ [row]
            /\ (sql_executes (store_wish s row) (UpsertStat "wishes_count")
                = true ->
                status (post_wishes jwt_verify sql_executes req s).1 = 201)
            /\ (sql_executes (store_wish s row) (UpsertStat "wishes_count")
                = false ->
                status (post_wishes jwt_verify sql_executes req s).1
                = 500))).
Proof.
  split; [|split].
  - apply wish_category_default.
  - apply post_wishes_rejects.
  - apply post_wishes_defaults_absent.
Qed.

(** What the list handlers of server.js bind, for string parameters:
    the integers that [parseInt] reads, as they are. *)
Lemma list_windows_raw (req : request) (p l : jsstr) :
  query req !! "page" = Some (VStr p) ->
  query req !! "limit" = Some (VStr l) ->
  get_wishes_window req
  = inr {| window_page := parseInt_string p None;
           window_limit := parseInt_string l None;
           window_offset := mul (sub (parseInt_string p None) (num 1))
                                (parseInt_string l None) |}
  /\ get_gallery_window req = get_wishes_window req.
Proof.
  intros Hp Hl. unfold get_gallery_window, get_wishes_window, get_default.
  cbn [get bind]. rewrite Hp, Hl. split; reflexivity.
Qed.

(** C5 (amended). [normalizePagination], on every page and limit that
    convert to a string (every string, as a query parameter is, and every
    number, boolean, date, [null] and [undefined]; on an object without a
    primitive conversion it throws a TypeError), returns a page of at
    least 1 and a limit between 1 and the ceiling, provided the ceiling
    (100 by default) is at least 1, with [offset = (page - 1) * limit].
    The list handlers of server.js ([GET /api/wishes],
    [GET /api/gallery]) do not call it: they bind [parseInt(limit)] and
    [(parseInt(page) - 1) * parseInt(limit)] as the query gives them. *)
Theorem pagination_policy (rawPage rawLimit : jsval)
    (maxLimit : option number) (req : request) :
  (forall printedPage printedLimit : jsstr,
     ToString rawPage = inr printedPage ->
     ToString rawLimit = inr printedLimit ->
     num_le (num 1) (default (num 100) maxLimit) ->
     exists p, normalizePagination rawPage rawLimit maxLimit = inr p
       /\ num_le (num 1) (page p)
       /\ in_range (num 1) (default (num 100) maxLimit) (limit p)
       /\ offset p = mul (sub (page p) (num 1)) (limit p))
  /\ (forall p l : jsstr,
        query req !! "page" = Some (VStr p) ->
        query req !! "limit" = Some (VStr l) ->
        get_wishes_window req
        = inr {| window_page := parseInt_string p None;
                 window_limit := parseInt_string l None;
                 window_offset := mul (sub (parseInt_string p None) (num 1))
                                      (parseInt_string l None) |}
        /\ get_gallery_window req = get_wishes_window req).
Proof.
  split.
  - apply normalizePagination_bounds.
  - intros p l. apply list_windows_raw.
Qed.

End ServerFacts.

(** ** The properties at the sample requests *)

Section Examples.
Import Server.

(** C1, counterexample. A wish posted with [category: "invalid"] is not
    stored with [nice]: the handler answers 400 and stores nothing. *)
Lemma post_wishes_invalid_category_rejected :
  includes [lit "nice"; lit "naughty"]
           (body_field Sample.wish_invalid_category "category") = false
  /\ post_wishes (H := Sample.runtime) Sample.jwt_verify
                 Sample.sql_executes Sample.wish_invalid_category
                 Sample.store
     = (bad_category, Sample.store).
Proof. split; vm_compute; reflexivity. Qed.

(** C1, witness: the shaper and the handler on the body with
    [category: "invalid"], the handler on a body without a category, over
    an engine that accepts the row. *)
Lemma wish_category_policy_witness :
  (exists shaped,
      inputTransformers.wish (H := Sample.runtime)
        (VObj (body Sample.wish_invalid_category)) = inr shaped
      /\ prop shaped "category" = VStr (lit "nice"))
  /\ (status (post_wishes (H := Sample.runtime) Sample.jwt_verify
                Sample.sql_executes Sample.wish_invalid_category
                Sample.store).1 = 400
      /\ (post_wishes (H := Sample.runtime) Sample.jwt_verify
            Sample.sql_executes Sample.wish_invalid_category
            Sample.store).2 = Sample.store)
  /\ (status (post_wishes (H := Sample.runtime) Sample.jwt_verify
                Sample.sql_executes Sample.wish_without_category
                Sample.store).1 = 201
      /\ exists row,
           wishes (post_wishes (H := Sample.runtime) Sample.jwt_verify
                     Sample.sql_executes Sample.wish_without_category
                     Sample.store).2
           = wishes Sample.store ++ [row]
           /\ wish_category row = VStr (lit "nice")).
Proof.
  split; [|split].
  - apply (wish_category_policy (H := Sample.runtime) Sample.jwt_verify
             Sample.sql_executes
             (VObj (body Sample.wish_invalid_category))
             Sample.wish_invalid_category Sample.store);
      [discriminate | discriminate | reflexivity].
  - apply (wish_category_policy (H := Sample.runtime) Sample.jwt_verify
             Sample.sql_executes
             VNull Sample.wish_invalid_category Sample.store);
      reflexivity.
  - destruct (proj2 (proj2 (wish_category_policy (H := Sample.runtime)
                              Sample.jwt_verify Sample.sql_executes VNull
                              Sample.wish_without_category Sample.store))
                eq_refl eq_refl eq_refl)
      as (row & Hname & _ & Hcategory & _ & Haccepted).
    assert (Hrow : Sample.sql_executes Sample.store (InsertWish row) = true).
    { unfold Sample.sql_executes. rewrite Hname. reflexivity. }
    destruct (Haccepted Hrow) as (Hstored & Hcreated & _).
    split; [apply Hcreated; reflexivity|].
    exists row. split; assumption.
Defined.

(** Over the same engine, a wish with a name of 101 characters passes the
    handler's checks, is rejected by the engine, and is answered 500 with
    nothing stored. *)
Example post_wishes_name_too_long :
  post_wishes (H := Sample.runtime) Sample.jwt_verify Sample.sql_executes
    Sample.wish_with_long_name Sample.store
  = errorHandler Sample.store
  /\ status (errorHandler Sample.store).1 = 500
  /\ (errorHandler Sample.store).2 = Sample.store.
Proof. split; [vm_compute; reflexivity|]. split; reflexivity. Qed.

(** The only todo of the sample store is alice's. *)
Lemma sample_todo_not_bobs :
  not_owned Sample.sql_id_eq Sample.store (params_id Sample.patch_as_bob)
            (id Sample.bob).
Proof.
  intros r Hr _. apply list_elem_of_singleton in Hr. subst r. discriminate.
Defined.

(** C2, witness: bob patches the todo of alice. *)
Lemma patch_todo_not_owned_witness :
  patch_todo_handler Sample.sql_id_eq Sample.sql_executes Sample.patch_as_bob
    Sample.store
  = (not_found, Sample.store).
Proof.
  apply (patch_todo_not_owned Sample.sql_id_eq Sample.sql_executes
           Sample.patch_as_bob
           Sample.store Sample.bob).
  - reflexivity.
  - exact sample_todo_not_bobs.
Defined.

(** The same request from the header on: bob's token verifies, the todo
    is alice's, the answer is 404 and the store is unchanged; with
    alice's token the todo is updated. *)
Example patch_by_bob_end_to_end :
  patch_todo Sample.jwt_verify Sample.sql_id_eq Sample.sql_executes
    Sample.patch_by_bob
             Sample.store
  = (not_found, Sample.store).
Proof. vm_compute. reflexivity. Qed.

Example patch_by_alice_end_to_end :
  status (patch_todo Sample.jwt_verify Sample.sql_id_eq Sample.sql_executes
            Sample.patch_by_alice Sample.store).1 = 200
  /\ map (fun r => todo_cols r !! "completed")
         (todos (patch_todo Sample.jwt_verify Sample.sql_id_eq
                   Sample.sql_executes
                   Sample.patch_by_alice Sample.store).2)
     = [Some (VNum (num 1))].
Proof. split; vm_compute; reflexivity. Qed.

(** C5, counterexample. [GET /api/wishes?page=1&limit=1000] binds the
    limit 1000, above the ceiling of 100; [GET /api/wishes?page=0&limit=-5]
    computes its offset from the page 0 and the limit -5, neither of
    which is positive. *)
Lemma list_window_unbounded :
  get_wishes_window (H := Sample.runtime) Sample.list_limit1000
  = inr {| window_page := num 1; window_limit := num 1000;
           window_offset := num 0 |}
  /\ ~ num_le (num 1000) (num 100)
  /\ get_wishes_window (H := Sample.runtime) Sample.list_page0
     = inr {| window_page := num 0; window_limit := num (-5);
              window_offset := num 5 |}
  /\ ~ num_le (num 1) (num 0)
  /\ ~ num_le (num 1) (num (-5)).
Proof.
  split; [vm_compute; reflexivity|]. split; [vm_compute; discriminate|].
  split; [vm_compute; reflexivity|]. split; vm_compute; discriminate.
Qed.

(** C5, witness: [normalizePagination("0", "1000")] and the window of
    [GET /api/wishes?page=1&limit=1000]. *)
Lemma pagination_policy_witness :
  (exists p,
      normalizePagination (H := Sample.runtime)
        (VStr (lit "0")) (VStr (lit "1000")) None = inr p
      /\ num_le (num 1) (page p)
      /\ in_range (num 1) (num 100) (limit p)
      /\ offset p = mul (sub (page p) (num 1)) (limit p))
  /\ (get_wishes_window (H := Sample.runtime) Sample.list_limit1000
      = inr {| window_page := parseInt_string (lit "1") None;
               window_limit := parseInt_string (lit "1000") None;
               window_offset :=
                 mul (sub (parseInt_string (lit "1") None) (num 1))
                     (parseInt_string (lit "1000") None) |}
      /\ get_gallery_window (H := Sample.runtime) Sample.list_limit1000
         = get_wishes_window (H := Sample.runtime) Sample.list_limit1000).
Proof.
  split.
  - apply (proj1 (pagination_policy (H := Sample.runtime)
                    (VStr (lit "0")) (VStr (lit "1000")) None
                    Sample.list_limit1000)
             (lit "0") (lit "1000"));
      reflexivity.
  - apply (pagination_policy (H := Sample.runtime)
             VUndefined VUndefined None Sample.list_limit1000);
      reflexivity.
Defined.

(** [normalizePagination("0", "1000")] is page 1, limit 100, offset 0. *)
Example normalizePagination_clamps :
  normalizePagination (H := Sample.runtime)
    (VStr (lit "0")) (VStr (lit "1000")) None
  = inr {| page := num 1; limit := num 100; offset := num 0 |}.
Proof. vm_compute. reflexivity. Qed.

(** [normalizePagination({toString: "x"}, "20")] throws a TypeError, and
    so does the window of a list request with that page. *)
Example normalizePagination_unprintable :
  normalizePagination (H := Sample.runtime)
    Sample.unprintable (VStr (lit "20")) None
  = inl TypeError
  /\ get_wishes_window (H := Sample.runtime)
       (Sample.request_of None [] [("page", Sample.unprintable)] [])
     = inl TypeError.
Proof. split; vm_compute; reflexivity. Qed.

(** C6, witness: no header, a header without a token, a forged token,
    the token of alice. *)
Lemma authenticateToken_required_witness :
  route (authenticateToken Sample.jwt_verify) Sample.handler
    (Sample.with_header None) Sample.store
  = (unauthenticated, Sample.store)
  /\ route (authenticateToken Sample.jwt_verify) Sample.handler
       (Sample.with_header (Some (lit "Bearer"))) Sample.store
     = (unauthenticated, Sample.store)
  /\ route (authenticateToken Sample.jwt_verify) Sample.handler
       (Sample.with_header (Some (lit "Bearer forged.token"))) Sample.store
     = (forbidden, Sample.store)
  /\ (exists req',
        route (authenticateToken Sample.jwt_verify) Sample.handler
          (Sample.with_header (Some (lit "Bearer token.of.alice")))
          Sample.store
        = Sample.handler req' Sample.store
        /\ user req' = Some Sample.alice
        /\ authorization req' = Some (lit "Bearer token.of.alice")
        /\ params_id req' = lit "7"
        /\ query req' = ∅
        /\ body req' = ∅
        /\ now req' = num 0).
Proof.
  split; [|split; [|split]].
  - apply (authenticateToken_required Sample.jwt_verify Sample.handler
             (Sample.with_header None) Sample.store).
    reflexivity.
  - apply (proj1 (proj2 (authenticateToken_required Sample.jwt_verify
                           Sample.handler
                           (Sample.with_header (Some (lit "Bearer")))
                           Sample.store))
             (lit "Bearer")); [reflexivity | left; reflexivity].
  - apply (proj1 (proj2 (proj2 (authenticateToken_required Sample.jwt_verify
                                  Sample.handler
                                  (Sample.with_header
                                     (Some (lit "Bearer forged.token")))
                                  Sample.store)))
             (lit "Bearer forged.token") (lit "forged.token"));
      [reflexivity | reflexivity | discriminate | reflexivity].
  - apply (proj2 (proj2 (proj2 (authenticateToken_required Sample.jwt_verify
                                  Sample.handler
                                  (Sample.with_header
                                     (Some (lit "Bearer token.of.alice")))
                                  Sample.store)))
             (lit "Bearer token.of.alice") (lit "token.of.alice")
             Sample.alice);
      [reflexivity | reflexivity | discriminate | reflexivity].
Defined.

(** C8, counterexample. A gallery row without [thumbnail_url] is shaped
    with the row's [image_url] as [thumbnail_url], not with [null]. *)
Lemma galleryImage_thumbnail_falls_back :
  has_key "thumbnail_url" Sample.image_without_thumbnail = false
  /\ exists shaped,
       outputTransformers.galleryImage (H := Sample.runtime)
         Sample.image_without_thumbnail = inr shaped
       /\ prop shaped "thumbnail_url" = VStr (lit "/uploads/a.jpg")
       /\ prop shaped "thumbnail_url" <> VNull.
Proof.
  split; [reflexivity|]. eexists. split; [reflexivity|].
  split; [vm_compute; reflexivity | vm_compute; discriminate].
Qed.

(** C8, witness: the gallery row without a thumbnail, and a song. *)
Lemma optional_fields_default_witness :
  Forall (fun '(shaper, k) =>
            defaults_to_null shaper k Sample.image_without_thumbnail)
         (null_defaulted (H := Sample.runtime))
  /\ Forall (fun '(shaper, k) => defaults_to_null shaper k Sample.song)
            (null_defaulted_music (H := Sample.runtime))
  /\ (exists shaped,
        outputTransformers.galleryImage (H := Sample.runtime)
          Sample.image_without_thumbnail = inr shaped
        /\ (truthy (prop Sample.image_without_thumbnail "thumbnail_url")
            = false ->
            prop shaped "thumbnail_url"
            = prop Sample.image_without_thumbnail "image_url"))
  /\ (exists shaped,
        outputTransformers.todo (H := Sample.runtime)
          Sample.image_without_thumbnail = inr shaped
        /\ prop shaped "due_date"
           = prop Sample.image_without_thumbnail "due_date").
Proof.
  split; [|split].
  - apply (optional_fields_default (H := Sample.runtime)
             Sample.image_without_thumbnail).
    reflexivity.
  - apply (proj1 (proj2 (optional_fields_default (H := Sample.runtime)
                           Sample.song eq_refl))
             (lit "12")).
    reflexivity.
  - apply (optional_fields_default (H := Sample.runtime)
             Sample.image_without_thumbnail).
    reflexivity.
Defined.

(** A song is shaped with its play count; a record whose [play_count] is
    [{toString: "x"}] makes [output.music] throw a TypeError. *)
Example music_play_count :
  (exists shaped,
      outputTransformers.music (H := Sample.runtime) Sample.song = inr shaped
      /\ prop shaped "play_count" = VNum (num 12)
      /\ prop shaped "artist" = VNull)
  /\ outputTransformers.music (H := Sample.runtime)
       (obj [("id", VNum (num 3)); ("play_count", Sample.unprintable)])
     = inl TypeError.
Proof.
  split; [|vm_compute; reflexivity].
  eexists. split; [vm_compute; reflexivity|]. split; reflexivity.
Qed.

(** C10, witness: the six shapers on [null]. *)
Lemma output_shapers_null_on_falsy_witness :
  outputTransformers.user (H := Sample.runtime) VNull = inr VNull
  /\ outputTransformers.wish (H := Sample.runtime) VNull = inr VNull
  /\ outputTransformers.todo (H := Sample.runtime) VNull = inr VNull
  /\ outputTransformers.timelineEvent (H := Sample.runtime) VNull = inr VNull
  /\ outputTransformers.galleryImage (H := Sample.runtime) VNull = inr VNull
  /\ outputTransformers.music (H := Sample.runtime) VNull = inr VNull.
Proof.
  apply (output_shapers_null_on_falsy (H := Sample.runtime) VNull).
  reflexivity.
Defined.

(** The record of the specification's example: the shaped user has the
    five public keys, and the date as an ISO string. *)
Example user_record_shaped :
  outputTransformers.user (H := Sample.runtime) Sample.user_record
  = inr (obj [("id", VNum (num 1)); ("username", VStr (lit "a"));
              ("email", VStr (lit "a@b.com")); ("avatar", VNull);
              ("created_at", VStr (lit "1970-01-01T00:00:00.000Z"))]).
Proof. vm_compute. reflexivity. Qed.

(** The examples of transformers/test.js that need no runtime. *)
Example test_sanitize_removes_control_characters :
  sanitize (VStr (lit "hello" ++ [0%N] ++ lit "world" ++ [31%N]))
  = lit "helloworld".
Proof. reflexivity. Qed.

Example test_sanitize_trims_whitespace :
  sanitize (VStr (lit "  hello  ")) = lit "hello".
Proof. reflexivity. Qed.

Example test_truncate_limits_length :
  truncate (VStr (lit "hello world")) 5 = lit "hello".
Proof. reflexivity. Qed.

Example test_toInt :
  toInt (H := Sample.runtime) (VStr (lit "42")) (num 0) = inr (num 42)
  /\ toInt (H := Sample.runtime) (VStr (lit "invalid")) (num 10)
     = inr (num 10).
Proof. split; vm_compute; reflexivity. Qed.

Example test_clamp :
  clamp (H := Sample.runtime) (VNum (num 150)) (num 1) (num 100)
  = inr (num 100).
Proof. vm_compute. reflexivity. Qed.

Example test_input_wish :
  inputTransformers.wish (H := Sample.runtime)
    (obj [("name", VStr (lit "  Santa  "));
          ("content", VStr (lit "  I want a gift  "));
          ("category", VStr (lit "nice"));
          ("is_anonymous", VStr (lit "true"))])
  = inr (obj [("name", VStr (lit "Santa"));
              ("content", VStr (lit "I want a gift"));
              ("category", VStr (lit "nice"));
              ("is_anonymous", VBool true)]).
Proof. vm_compute. reflexivity. Qed.

End Examples.

(** * Further properties of the code *)

(** ** String transformers *)

Section StringFacts.

Lemma take_elem (s : jsstr) (n : nat) (c : code_unit) :
  c ∈ take n s -> c ∈ s.
Proof.
  intros Hc. rewrite <- (take_drop n s). apply elem_of_app. now left.
Qed.

Lemma truncate_length (str : jsval) (maxLength : Z) :
  0 <= maxLength -> Z.of_nat (length (truncate str maxLength)) <= maxLength.
Proof.
  intros Hmax. unfold truncate.
  destruct (maxLength <? Z.of_nat (length (sanitize str))) eqn:Hlen; [|lia].
  unfold substring0. rewrite length_take. lia.
Qed.

Lemma truncate_no_control (str : jsval) (maxLength : Z) (c : code_unit) :
  c ∈ truncate str maxLength -> is_control c = false.
Proof.
  unfold truncate.
  destruct (maxLength <? Z.of_nat (length (sanitize str))).
  - intros Hc. apply take_elem in Hc. now apply sanitize_no_control in Hc.
  - apply sanitize_no_control.
Qed.

(** [truncate(str, maxLength)], for [maxLength >= 0], is at most
    [maxLength] code units long and holds no control character, whatever
    [str] is. *)
Theorem truncate_bounded (str : jsval) (maxLength : Z) :
  0 <= maxLength ->
  Z.of_nat (length (truncate str maxLength)) <= maxLength
  /\ Forall (fun c => is_control c = false) (truncate str maxLength).
Proof.
  intros Hmax. split; [now apply truncate_length|].
  apply Forall_forall. intros c. apply truncate_no_control.
Qed.

Lemma replace_char_elem (x : code_unit) (r s : jsstr) (c : code_unit) :
  c ∈ replace_char x r s -> (c ∈ s /\ c <> x) \/ c ∈ r.
Proof.
  unfold replace_char. rewrite list_elem_of_In, in_flat_map.
  intros (y & Hy & Hc). destruct (y =? x)%N eqn:E.
  - right. now apply list_elem_of_In.
  - left. apply N.eqb_neq in E. apply list_elem_of_In in Hy.
    destruct Hc as [<-|[]]. now split.
Qed.

Lemma entity_no_markup (c : code_unit) :
  c ∈ lit "&amp;" ++ lit "&lt;" ++ lit "&gt;" ++ lit "&quot;"
      ++ lit "&#039;" ->
  markup c = false.
Proof.
  intros Hc. cbn in Hc.
  repeat (apply elem_of_cons in Hc as [->|Hc]; [reflexivity|]).
  now apply elem_of_nil in Hc.
Qed.

Lemma escapeHtml_elem (str : jsval) (c : code_unit) :
  c ∈ escapeHtml str -> markup c = false.
Proof.
  unfold escapeHtml. intros Hc.
  apply replace_char_elem in Hc as [[Hc H39]|Hc];
    [|apply entity_no_markup; rewrite !elem_of_app; tauto].
  apply replace_char_elem in Hc as [[Hc H34]|Hc];
    [|apply entity_no_markup; rewrite !elem_of_app; tauto].
  apply replace_char_elem in Hc as [[Hc H62]|Hc];
    [|apply entity_no_markup; rewrite !elem_of_app; tauto].
  apply replace_char_elem in Hc as [[Hc H60]|Hc];
    [|apply entity_no_markup; rewrite !elem_of_app; tauto].
  unfold markup.
  apply N.eqb_neq in H39, H34, H62, H60. now rewrite H39, H34, H62, H60.
Qed.

(** The output of [escapeHtml] holds none of [<], [>], the double quote
    and the single quote, and no control character, whatever its input. *)
Theorem escapeHtml_no_markup (str : jsval) :
  Forall (fun c => markup c = false /\ is_control c = false)
         (escapeHtml str).
Proof.
  apply Forall_forall. intros c Hc. split; [exact (escapeHtml_elem str c Hc)|].
  unfold escapeHtml in Hc.
  repeat (apply replace_char_elem in Hc as [[Hc _]|Hc];
          [|cbn in Hc;
            repeat (apply elem_of_cons in Hc as [->|Hc]; [reflexivity|]);
            now apply elem_of_nil in Hc]).
  exact (sanitize_no_control str c Hc).
Qed.

End StringFacts.

(** [sanitize] settles at its second pass: the result of sanitizing twice
    is trimmed, and a further pass returns it unchanged. *)
Theorem sanitize_twice_stable (s : jsstr) :
  trimmed (sanitize (VStr (sanitize (VStr s))))
  /\ sanitize (VStr (sanitize (VStr (sanitize (VStr s)))))
     = sanitize (VStr (sanitize (VStr s))).
Proof.
  exact (proj2 (sanitize_without_control (sanitize (VStr s))
                  (sanitize_no_control (VStr s)))).
Qed.

(** ** Number and boolean transformers *)

Section NumberFacts.
Context `{Runtime}.


(** Clamping a result of [clamp] returns it, for every input. *)
Theorem clamp_stable (value : jsval) (min max r : number) :
  clamp value min max = inr r -> clamp (VNum r) min max = inr r.
Proof.
  unfold clamp.
  destruct (match value with VNum x => inr x | _ => toFloat value (num 0) end)
    as [e|n]; [discriminate|]. cbn [bind]. intros [= <-].
  f_equal. apply bound_idempotent.
Qed.

Lemma SFeqb_zero (x : number) :
  SFeqb x (num 0)
  = match x with S754_zero _ => true | _ => false end.
Proof. destruct x as [[]|[]| |[] m e]; reflexivity. Qed.

(** On a value that is not a string, [toBool] is JavaScript's truthiness,
    except at the number NaN, which is falsy and which [toBool] maps to
    [true]. *)
Theorem toBool_truthiness (value : jsval) :
  toBool (VNum NaN) = true /\ truthy (VNum NaN) = false
  /\ ((forall s, value <> VStr s) -> value <> VNum NaN ->
      toBool value = truthy value).
Proof.
  split; [reflexivity|]. split; [reflexivity|]. intros Hs Hn.
  destruct value as [| |b|x|s| | |]; try reflexivity.
  - cbn [toBool truthy]. rewrite SFeqb_zero.
    destruct x; try reflexivity. now destruct Hn.
  - now destruct (Hs s).
Qed.

End NumberFacts.

(** ** Pagination metadata *)

Section PaginationMeta.

(** A number that is at least 1 is positive: finite or infinite. *)
Lemma ge_one_positive (x : number) :
  num_le (num 1) x ->
  x = S754_infinity false \/ exists m e, x = S754_finite false m e.
Proof.
  unfold num_le. destruct x as [[]|[]| |[] m e]; try discriminate.
  - now left.
  - right. now exists m, e.
Qed.

(** A rounded value keeps the sign it is given, or is NaN. *)
Lemma binary_round_aux_sign (sx : bool) (mx ex : Z) (lx : location) :
  binary_round_aux prec emax sx mx ex lx = S754_zero sx
  \/ binary_round_aux prec emax sx mx ex lx = S754_infinity sx
  \/ binary_round_aux prec emax sx mx ex lx = S754_nan
  \/ exists m e, binary_round_aux prec emax sx mx ex lx = S754_finite sx m e.
Proof.
  unfold binary_round_aux.
  destruct (shr_fexp prec emax mx ex lx) as [mrs' e'].
  destruct (shr_fexp prec emax _ e' loc_Exact) as [mrs'' e''].
  destruct (shr_m mrs'') as [|m|m]; [tauto| |tauto].
  destruct (e'' <=? emax - prec); [|tauto].
  right. right. right. now exists m, e''.
Qed.

(** The product of two positive numbers is not below zero. *)
Lemma mul_positive_not_negative (x y : number) :
  num_le (num 1) x -> num_le (num 1) y -> lt (mul x y) (num 0) = false.
Proof.
  intros Hx Hy.
  destruct (ge_one_positive x Hx) as [->|(mx & ex & ->)],
           (ge_one_positive y Hy) as [->|(my & ey & ->)]; try reflexivity.
  unfold mul. cbn [SFmul xorb].
  destruct (binary_round_aux_sign false (Z.pos (mx * my)) (ex + ey) loc_Exact)
    as [E|[E|[E|(m & e & E)]]]; rewrite E; reflexivity.
Qed.

(** For an empty result set ([total = 0]) and a page and a limit that are
    at least 1, as [normalizePagination] returns them, the metadata
    reports no page at all and no next page. With the limit 0, which a
    raw query parameter can be, the number of pages is NaN. *)
Theorem createPaginationMeta_empty (page limit : number) :
  num_le (num 1) page -> num_le (num 1) limit ->
  paginationMeta.totalPages (createPaginationMeta page limit (num 0)) = num 0
  /\ paginationMeta.hasNextPage (createPaginationMeta page limit (num 0))
     = false
  /\ paginationMeta.totalPages (createPaginationMeta page (num 0) (num 0))
     = NaN.
Proof.
  intros Hp Hl. split; [|split]; cbn.
  - destruct (ge_one_positive limit Hl) as [->|(m & e & ->)]; reflexivity.
  - now apply mul_positive_not_negative.
  - reflexivity.
Qed.

End PaginationMeta.

(** ** Input shapers *)

Section InputFacts.
Context `{Runtime}.

Lemma includes_string (allowed : list jsstr) (v : jsval) :
  includes allowed v = true -> exists s, v = VStr s /\ s ∈ allowed.
Proof.
  destruct v; try discriminate. cbn [includes]. intros Hs.
  apply bool_decide_eq_true in Hs. now eexists.
Qed.

(** A shaped wish is well formed whatever the body holds: the name and
    the content are strings of at most 100 and 1000 code units, the
    category is one of [nice] and [naughty], the flag is a boolean. *)
Theorem input_wish_well_formed (data : jsval) :
  data <> VNull -> data <> VUndefined ->
  exists name content category anonymous,
    inputTransformers.wish data
    = inr (obj [("name", VStr name); ("content", VStr content);
                ("category", VStr category);
                ("is_anonymous", VBool anonymous)])
    /\ Z.of_nat (length name) <= 100
    /\ Z.of_nat (length content) <= 1000
    /\ category ∈ [lit "nice"; lit "naughty"].
Proof.
  intros Hn Hu. unfold inputTransformers.wish.
  rewrite !(get_object _ _ Hn Hu). cbn [bind].
  destruct (includes [lit "nice"; lit "naughty"] (prop data "category"))
    eqn:Hc.
  - destruct (includes_string _ _ Hc) as (category & -> & Hin).
    do 4 eexists. split; [reflexivity|].
    split; [now apply truncate_length|]. split; [now apply truncate_length|].
    exact Hin.
  - do 4 eexists. split; [reflexivity|].
    split; [now apply truncate_length|]. split; [now apply truncate_length|].
    apply elem_of_cons. now left.
Qed.

Lemma todo_input_object (data shaped : jsval) :
  inputTransformers.todo data = inr shaped ->
  data <> VNull /\ data <> VUndefined.
Proof.
  unfold inputTransformers.todo.
  destruct (get data "title") eqn:E; [discriminate|].
  intros _. exact (get_inr_object _ _ _ E).
Qed.

(** The fields of a shaped todo: the title is a string of at most 255
    code units; a priority, when there is one, is one of [low], [medium]
    and [high]; a description is a string of at most 1000 code units; the
    flag is a boolean; the due date is the one of the body, unchanged. *)
Theorem input_todo_fields (data shaped : jsval) :
  inputTransformers.todo data = inr shaped ->
  (exists title, prop shaped "title" = VStr title
     /\ Z.of_nat (length title) <= 255)
  /\ (has_key "priority" shaped = true ->
      exists priority, prop shaped "priority" = VStr priority
        /\ priority ∈ [lit "low"; lit "medium"; lit "high"])
  /\ (has_key "description" shaped = true ->
      exists description, prop shaped "description" = VStr description
        /\ Z.of_nat (length description) <= 1000)
  /\ (has_key "completed" shaped = true ->
      exists completed, prop shaped "completed" = VBool completed)
  /\ prop shaped "due_date" = prop data "due_date".
Proof.
  intros Htodo. destruct (todo_input_object _ _ Htodo) as [Hn Hu].
  unfold inputTransformers.todo in Htodo.
  rewrite !(get_object _ _ Hn Hu) in Htodo. cbn [bind] in Htodo.
  injection Htodo as <-.
  assert (Hp : exists priority,
             (if includes [lit "low"; lit "medium"; lit "high"]
                          (prop data "priority")
              then prop data "priority" else VStr (lit "medium"))
             = VStr priority
             /\ priority ∈ [lit "low"; lit "medium"; lit "high"]).
  { destruct (includes _ (prop data "priority")) eqn:Hc.
    - destruct (includes_string _ _ Hc) as (priority & -> & Hin).
      now exists priority.
    - eexists. split; [reflexivity|]. apply elem_of_cons. right.
      apply elem_of_cons. now left. }
  destruct Hp as (priority & Hp & Hin). rewrite Hp. clear Hp.
  set (description := prop data "description").
  set (due_date := prop data "due_date").
  set (completed := prop data "completed").
  set (title := truncate (prop data "title") 255).
  assert (Ht : Z.of_nat (length title) <= 255) by now apply truncate_length.
  generalize (prop data "priority"). intros given.
  clearbody description due_date completed title.
  unfold set_prop, has_key, prop, get.
  destruct (defined description) eqn:Hd, (defined given) eqn:Hpr,
           (defined due_date) eqn:Hdue, (defined completed) eqn:Hco.
  all: split; [exists title; split; [now simplify_map_eq|exact Ht]|].
  all: split; [intros Hk; simplify_map_eq;
               first [discriminate | now exists priority]|].
  all: split; [intros Hk; simplify_map_eq;
               first [discriminate
                     | eexists; split;
                       [reflexivity|now apply truncate_length]]|].
  all: split; [intros Hk; simplify_map_eq;
               first [discriminate | eexists; reflexivity]|].
  all: simplify_map_eq.
  all: first [reflexivity
             | destruct due_date; first [reflexivity|discriminate]].
Qed.

End InputFacts.

Section RegistrationFacts.
Context `{Runtime}.

(** [input.userRegistration] passes the password through as it is, and
    returns a username of at most 50 code units without control
    characters. *)
Theorem userRegistration_password_untouched (data shaped : jsval) :
  inputTransformers.userRegistration data = inr shaped ->
  prop shaped "password" = prop data "password"
  /\ exists username, prop shaped "username" = VStr username
       /\ Z.of_nat (length username) <= 50
       /\ (forall c, c ∈ username -> is_control c = false).
Proof.
  unfold inputTransformers.userRegistration.
  destruct (get data "username") as [e|username] eqn:E; [discriminate|].
  destruct (get_inr_object _ _ _ E) as [Hn Hu].
  rewrite !(get_object _ _ Hn Hu). cbn [bind]. intros [= <-].
  split; [reflexivity|]. eexists. split; [reflexivity|].
  split; [now apply truncate_length|]. intros c. apply truncate_no_control.
Qed.

(** A shaped gallery image always has a category, a string of at most 50
    code units, which is [general] when the body has none; its label is
    [null] or a string of at most 100 code units. *)
Theorem input_galleryImage_category (data shaped : jsval) :
  inputTransformers.galleryImage data = inr shaped ->
  (exists category, prop shaped "category" = VStr category
     /\ Z.of_nat (length category) <= 50
     /\ (truthy (prop data "category") = false ->
         category = lit "general"))
  /\ (prop shaped "label" = VNull
      \/ exists label, prop shaped "label" = VStr label
           /\ Z.of_nat (length label) <= 100).
Proof.
  unfold inputTransformers.galleryImage.
  destruct (get data "label") as [e|label] eqn:E; [discriminate|].
  destruct (get_inr_object _ _ _ E) as [Hn Hu].
  rewrite !(get_object _ _ Hn Hu). cbn [bind]. intros [= <-]. split.
  - destruct (truthy (prop data "category")) eqn:Hc.
    + eexists. split; [reflexivity|].
      split; [now apply truncate_length|discriminate].
    + eexists. split; [reflexivity|]. split; [cbn; lia|reflexivity].
  - rewrite (get_object _ _ Hn Hu) in E. injection E as <-.
    destruct (truthy (prop data "label")).
    + right. eexists. split; [reflexivity|]. now apply truncate_length.
    + now left.
Qed.

End RegistrationFacts.

(** ** Output shapers and collections *)

Section OutputFacts.
Context `{Runtime}.
Import outputTransformers envelopes.

Lemma toISO_null_or_string (date : jsval) :
  toISO date = VNull \/ exists iso, toISO date = VStr iso.
Proof.
  unfold toISO. destruct (negb (truthy date)); [now left|].
  destruct (match date with VDate t => Some t | _ => Date_new date end)
    as [t|]; [|now left].
  destruct (is_nan t); [now left|]. right. now eexists.
Qed.

(** Unfold a shaper on a truthy record: every read succeeds. *)
Ltac shape_record Hr :=
  unfold user, wish, todo, timelineEvent, galleryImage, music;
  rewrite Hr; cbn [negb]; rewrite !(get_truthy _ _ Hr); cbn [bind].

(** The dates and the flags of a shaped record are normalised: whatever
    the stored [created_at] and [updated_at] are, the shaped ones are
    [null] or a string, and [is_anonymous] of a wish and [completed] of a
    todo are booleans. *)
Theorem output_dates_and_flags (record : jsval) :
  truthy record = true ->
  Forall (fun shaper =>
            exists shaped, shaper record = inr shaped
              /\ (prop shaped "created_at" = VNull
                  \/ exists iso, prop shaped "created_at" = VStr iso))
         [user; wish; todo; timelineEvent; galleryImage]
  /\ (exists shaped flag, wish record = inr shaped
        /\ prop shaped "is_anonymous" = VBool flag)
  /\ (exists shaped flag, todo record = inr shaped
        /\ prop shaped "completed" = VBool flag
        /\ (prop shaped "updated_at" = VNull
            \/ exists iso, prop shaped "updated_at" = VStr iso)).
Proof.
  intros Hr. split; [|split].
  - repeat apply List.Forall_cons; try apply List.Forall_nil.
    all: eexists; split; [shape_record Hr; reflexivity|].
    all: rewrite prop_obj; cbn [list_to_map foldr]; simplify_map_eq.
    all: apply toISO_null_or_string.
  - do 2 eexists. split; [shape_record Hr; reflexivity|].
    rewrite prop_obj; cbn [list_to_map foldr]. now simplify_map_eq.
  - do 2 eexists. split; [shape_record Hr; reflexivity|].
    rewrite !prop_obj; cbn [list_to_map foldr]. simplify_map_eq.
    split; [reflexivity|apply toISO_null_or_string].
Qed.

Lemma map_throws_total (shaper : jsval -> throws jsval) (items : list jsval) :
  (forall item, exists shaped, shaper item = inr shaped) ->
  exists shaped, map_throws shaper items = inr shaped
    /\ length shaped = length items
    /\ (forall i item, items !! i = Some item ->
          exists one, shaped !! i = Some one /\ shaper item = inr one).
Proof.
  intros Htotal. induction items as [|item items IH].
  - exists []. split; [reflexivity|]. split; [reflexivity|].
    intros i item Hi. now rewrite lookup_nil in Hi.
  - destruct (Htotal item) as [one Hone].
    destruct IH as (others & Hothers & Hlen & Hat).
    exists (one :: others). cbn [map_throws]. rewrite Hone, Hothers.
    split; [reflexivity|]. split; [cbn; now rewrite Hlen|].
    intros [|i] it Hi.
    + injection Hi as <-. now exists one.
    + now apply Hat.
Qed.

(** [collection] shapes an array element by element, in order and
    without dropping any, with a shaper that does not throw; on anything
    that is not an array it returns the empty array. The elements that
    are falsy come out as [null]. *)
Theorem collection_elementwise (dataArray : jsval) :
  Forall (fun shaper =>
            match dataArray with
            | VArr items =>
                exists shaped,
                  collection dataArray shaper = inr (VArr shaped)
                  /\ length shaped = length items
                  /\ (forall i item, items !! i = Some item ->
                        exists one, shaped !! i = Some one
                          /\ shaper item = inr one
                          /\ (truthy item = false -> one = VNull))
            | _ => collection dataArray shaper = inr (VArr [])
            end)
         [user; wish; todo; timelineEvent; galleryImage].
Proof.
  pose proof (fun item => output_shapers_total item) as Htotal.
  assert (Hnull : forall item, truthy item = false ->
            Forall (fun shaper => shaper item = inr VNull)
                   [user; wish; todo; timelineEvent; galleryImage]).
  { intros item Hi. repeat apply List.Forall_cons; try apply List.Forall_nil.
    all: unfold user, wish, todo, timelineEvent, galleryImage;
      now rewrite Hi. }
  apply Forall_forall. intros shaper Hin.
  destruct dataArray as [| | | | | |items|]; try reflexivity.
  assert (Hs : forall item, exists shaped, shaper item = inr shaped).
  { intros item. specialize (Htotal item).
    rewrite Forall_forall in Htotal. now apply Htotal. }
  destruct (map_throws_total shaper items Hs) as (shaped & Hm & Hlen & Hat).
  exists shaped. cbn [collection]. rewrite Hm. split; [reflexivity|].
  split; [exact Hlen|]. intros i item Hi.
  destruct (Hat i item Hi) as (one & Hone & Hshape).
  exists one. split; [exact Hone|]. split; [exact Hshape|].
  intros Hfalsy. specialize (Hnull item Hfalsy).
  rewrite Forall_forall in Hnull. specialize (Hnull shaper Hin).
  congruence.
Qed.

End OutputFacts.

(** ** Validators *)

Section RegexFacts.
Import Regex.

Lemma nullable_matches (r : regex) : nullable r = true <-> matches r [].
Proof.
  split.
  - induction r as [| |p|r1 IH1 r2 IH2|r1 IH1 r2 IH2|r IH]; cbn [nullable];
      try discriminate; intros Hn.
    + constructor.
    + apply andb_prop in Hn as [H1 H2].
      exact (matches_cat r1 r2 [] [] (IH1 H1) (IH2 H2)).
    + apply orb_prop in Hn as [H1|H2];
        [apply matches_alt_l|apply matches_alt_r]; auto.
    + constructor.
  - intros Hm. remember [] as s eqn:Es.
    induction Hm as [|p c Hp|r1 r2 s1 s2 H1 IH1 H2 IH2|r1 r2 s H IH
                    |r1 r2 s H IH|r|r s1 s2 H1 IH1 H2 IH2];
      cbn [nullable]; try reflexivity; try discriminate.
    + apply app_eq_nil in Es as [-> ->].
      now rewrite IH1, IH2.
    + now rewrite IH.
    + rewrite IH by assumption. apply orb_true_r.
Qed.

Lemma matches_star_step (r : regex) (c : code_unit) (s : jsstr) :
  (forall s', matches r (c :: s') -> matches (deriv c r) s') ->
  matches (Star r) (c :: s) -> matches (Cat (deriv c r) (Star r)) s.
Proof.
  intros IHr Hm. remember (Star r) as star eqn:Er.
  remember (c :: s) as cs eqn:Es. revert s Es.
  induction Hm as [|p c' Hp|r1 r2 s1 s2 H1 IH1 H2 IH2|r1 r2 s0 H IH
                  |r1 r2 s0 H IH|r0|r0 s1 s2 H1 IH1 H2 IH2];
    try discriminate; intros s Es.
  injection Er as ->. destruct s1 as [|c1 s1].
  - cbn [app] in Es. now apply IH2.
  - cbn [app] in Es. injection Es as -> <-.
    apply matches_cat; [now apply IHr|exact H2].
Qed.

Lemma deriv_matches (c : code_unit) (r : regex) (s : jsstr) :
  matches (deriv c r) s <-> matches r (c :: s).
Proof.
  revert s. induction r as [| |p|r1 IH1 r2 IH2|r1 IH1 r2 IH2|r IH];
    intros s; cbn [deriv].
  - split; intros Hm; inversion Hm.
  - split; intros Hm; inversion Hm.
  - destruct (p c) eqn:Hp; split; intros Hm.
    + inversion Hm; subst. now constructor.
    + inversion Hm; subst. constructor.
    + inversion Hm.
    + inversion Hm; subst. congruence.
  - assert (Hcat : matches (Cat (deriv c r1) r2) s ->
                   matches (Cat r1 r2) (c :: s)).
    { intros Hm. inversion Hm as [| |? ? s1 s2 H1 H2| | | |]; subst.
      apply IH1 in H1. exact (matches_cat r1 r2 (c :: s1) s2 H1 H2). }
    assert (Hinv : matches (Cat r1 r2) (c :: s) ->
                   matches (Cat (deriv c r1) r2) s
                   \/ (matches r1 [] /\ matches (deriv c r2) s)).
    { intros Hm. inversion Hm as [| |? ? s1 s2 H1 H2 E E'| | | |]; subst.
      destruct s1 as [|c1 s1].
      - cbn [app] in E'. subst s2. right. split; [exact H1|now apply IH2].
      - cbn [app] in E'. injection E' as -> <-.
        left. apply matches_cat; [now apply IH1|exact H2]. }
    destruct (nullable r1) eqn:Hn; split; intros Hm.
    + inversion Hm; subst; [now apply Hcat|].
      apply nullable_matches in Hn.
      apply (matches_cat r1 r2 [] (c :: s) Hn). now apply IH2.
    + destruct (Hinv Hm) as [H|[_ H]];
        [now apply matches_alt_l|now apply matches_alt_r].
    + now apply Hcat.
    + destruct (Hinv Hm) as [H|[H _]]; [exact H|].
      apply nullable_matches in H. congruence.
  - split; intros Hm; inversion Hm; subst.
    + apply matches_alt_l. now apply IH1.
    + apply matches_alt_r. now apply IH2.
    + apply matches_alt_l. now apply IH1.
    + apply matches_alt_r. now apply IH2.
  - split; intros Hm.
    + inversion Hm as [| |? ? s1 s2 H1 H2| | | |]; subst.
      apply IH in H1. exact (matches_star_cons r (c :: s1) s2 H1 H2).
    + apply matches_star_step; [|exact Hm]. intros s'. apply IH.
Qed.

(** The test by derivatives decides the language of the pattern. *)
Lemma test_matches (r : regex) (s : jsstr) :
  test r s = true <-> matches r s.
Proof.
  revert r. induction s as [|c s IH]; intros r; cbn [test].
  - apply nullable_matches.
  - rewrite IH. apply deriv_matches.
Qed.

Lemma matches_star_class (p : code_unit -> bool) (s : jsstr) :
  matches (Star (Class p)) s <-> Forall (fun c => p c = true) s.
Proof.
  split.
  - intros Hm. remember (Star (Class p)) as star eqn:Er.
    induction Hm as [|p' c Hp|r1 r2 s1 s2 H1 IH1 H2 IH2|r1 r2 s0 H IH
                    |r1 r2 s0 H IH|r0|r0 s1 s2 H1 IH1 H2 IH2];
      try discriminate.
    + constructor.
    + injection Er as ->. inversion H1; subst.
      constructor; [assumption|]. now apply IH2.
  - induction 1 as [|c s Hc Hs IH]; [constructor|].
    apply (matches_star_cons (Class p) [c] s); [now constructor|exact IH].
Qed.

Lemma matches_plus_class (p : code_unit -> bool) (s : jsstr) :
  matches (Plus (Class p)) s <-> s <> [] /\ Forall (fun c => p c = true) s.
Proof.
  unfold Plus. split.
  - intros Hm. inversion Hm as [| |? ? s1 s2 H1 H2| | | |]; subst.
    inversion H1; subst. apply matches_star_class in H2.
    split; [discriminate|]. now constructor.
  - intros [Hne Hall]. destruct Hall as [|c s Hc Hs]; [congruence|].
    apply (matches_cat (Class p) (Star (Class p)) [c] s);
      [now constructor|now apply matches_star_class].
Qed.

Lemma matches_chr (c : code_unit) (s : jsstr) :
  matches (Chr c) s <-> s = [c].
Proof.
  unfold Chr. split.
  - intros Hm. inversion Hm as [|? x Hx| | | | |]; subst.
    apply N.eqb_eq in Hx. now subst.
  - intros ->. constructor. apply N.eqb_refl.
Qed.

Lemma matches_cat_iff (r1 r2 : regex) (s : jsstr) :
  matches (Cat r1 r2) s
  <-> exists s1 s2, s = s1 ++ s2 /\ matches r1 s1 /\ matches r2 s2.
Proof.
  split.
  - intros Hm. inversion Hm as [| |? ? s1 s2 H1 H2| | | |]; subst.
    now exists s1, s2.
  - intros (s1 & s2 & -> & H1 & H2). now constructor.
Qed.

End RegexFacts.

Section ValidatorFacts.
Context `{Runtime}.

(** [validators.email] accepts a string exactly when it reads
    [local@domain.tld] with three non-empty parts that hold neither white
    space nor [@]: one [@] in all, and a dot after it that is neither
    the first nor the last character of what follows. *)
Theorem email_accepts (s : jsstr) :
  validators.email (VStr s) = inr true
  <-> exists local domain tld,
        s = local ++ [64%N] ++ domain ++ [46%N] ++ tld
        /\ local <> [] /\ domain <> [] /\ tld <> []
        /\ Forall (fun c => validators.not_space_or_at c = true)
                  (local ++ domain ++ tld).
Proof.
  unfold validators.email. cbn [ToString].
  destruct (Regex.test validators.emailRegex s) eqn:Ht.
  - split; [intros _|reflexivity]. apply test_matches in Ht.
    unfold validators.emailRegex in Ht.
    apply matches_cat_iff in Ht as (local & s1 & -> & Hl & Ht).
    apply matches_cat_iff in Ht as (at_sign & s2 & -> & Ha & Ht).
    apply matches_cat_iff in Ht as (domain & s3 & -> & Hd & Ht).
    apply matches_cat_iff in Ht as (dot & tld & -> & Hdot & Htld).
    apply matches_chr in Ha, Hdot. subst at_sign dot.
    apply matches_plus_class in Hl as [Hl1 Hl2], Hd as [Hd1 Hd2],
      Htld as [Ht1 Ht2].
    exists local, domain, tld. split; [reflexivity|].
    repeat (split; [assumption|]). rewrite !Forall_app. tauto.
  - split; [discriminate|]. intros (local & domain & tld & -> & Hl & Hd
                                     & Ht' & Hall).
    rewrite !Forall_app in Hall. destruct Hall as (Hal & Had & Hat).
    assert (Hm : Regex.matches validators.emailRegex
                   (local ++ [64%N] ++ domain ++ [46%N] ++ tld)).
    { unfold validators.emailRegex.
      apply Regex.matches_cat; [now apply matches_plus_class|].
      apply Regex.matches_cat; [now apply matches_chr|].
      apply Regex.matches_cat; [now apply matches_plus_class|].
      apply Regex.matches_cat; [now apply matches_chr|].
      now apply matches_plus_class. }
    apply test_matches in Hm. congruence.
Qed.

Lemma trimStart_blank (s : jsstr) :
  Forall (fun c => is_white_space c = true) s -> trimStart s = [].
Proof.
  induction 1 as [|c s Hc Hs IH]; [reflexivity|]. cbn [trimStart].
  now rewrite Hc.
Qed.

(** [validators.required] accepts a string of white space only, which
    [sanitize], and so every input shaper, turns into the empty string:
    a field can pass the validator and be stored empty. *)
Theorem required_accepts_blank (s fieldName : jsstr) :
  s <> [] -> Forall (fun c => is_white_space c = true) s ->
  validators.required (VStr s) fieldName = inr true
  /\ sanitize (VStr s) = []
  /\ validators.required (VStr (sanitize (VStr s))) fieldName
     = inl (Error (fieldName ++ lit " is required")).
Proof.
  intros Hne Hblank.
  assert (Hs : sanitize (VStr s) = []).
  { unfold sanitize, trim. now rewrite (trimStart_blank s Hblank). }
  rewrite Hs. split; [|split; reflexivity].
  destruct s; [congruence|reflexivity].
Qed.

(** The wish shaper and [validators.enum] agree on the category: the
    shaper keeps the category of the body when the validator accepts it,
    and writes [nice] when the validator throws, which it does with the
    message that lists the allowed values. *)
Theorem enum_agrees_with_wish_shaper (data : jsval) (fieldName : jsstr) :
  data <> VNull -> data <> VUndefined ->
  exists shaped, inputTransformers.wish data = inr shaped
    /\ (validators.enum (prop data "category")
          [lit "nice"; lit "naughty"] fieldName = inr true
        /\ prop shaped "category" = prop data "category"
        \/ validators.enum (prop data "category")
             [lit "nice"; lit "naughty"] fieldName
           = inl (Error (fieldName ++ lit " must be one of: nice, naughty"))
           /\ prop shaped "category" = VStr (lit "nice")).
Proof.
  intros Hn Hu. unfold inputTransformers.wish, validators.enum.
  rewrite !(get_object _ _ Hn Hu). cbn [bind]. eexists.
  split; [reflexivity|].
  destruct (includes [lit "nice"; lit "naughty"] (prop data "category"));
    [left|right]; split; reflexivity.
Qed.

End ValidatorFacts.

(** ** Handlers *)

Section HandlerFacts.
Context `{Runtime}.
Import Server.
Variable jwt_verify : jsstr -> option identity.
Variable sql_id_eq : jsstr -> Z -> bool.
Variable sql_executes : db -> statement -> bool.

Lemma optionalAuth_cases (req : request) :
  optionalAuth jwt_verify req = Next req
  \/ exists token u, bearer_token req = VStr token /\ token <> []
       /\ jwt_verify token = Some u
       /\ optionalAuth jwt_verify req = Next (set_user req u).
Proof.
  unfold optionalAuth. destruct (bearer_token req) as [| | | |[|c t]| | |];
    try (now left).
  destruct (jwt_verify (c :: t)) as [u|] eqn:Hv; [|now left].
  right. exists (c :: t), u. now repeat split.
Qed.

(** [optionalAuth] never answers in the handler's place. A token that
    verifies attaches its identity to the request; without a header, or
    with a token that [jwt.verify] refuses, the request goes on as it
    came, anonymous. *)
Theorem optionalAuth_never_rejects (h : handler) (req : request) (s : db) :
  (forall header token u,
     authorization req = Some header ->
     split_space header !! 1%nat = Some token -> token <> [] ->
     jwt_verify token = Some u ->
     exists req', route (optionalAuth jwt_verify) h req s = h req' s
       /\ user req' = Some u /\ body req' = body req
       /\ params_id req' = params_id req /\ query req' = query req)
  /\ (forall header token,
        authorization req = Some header ->
        split_space header !! 1%nat = Some token -> token <> [] ->
        jwt_verify token = None ->
        route (optionalAuth jwt_verify) h req s = h req s)
  /\ (authorization req = None ->
      route (optionalAuth jwt_verify) h req s = h req s).
Proof.
  unfold route, optionalAuth. split; [|split].
  - intros header token u Hh Ht Hne Hv.
    rewrite (bearer_token_second _ _ _ Hh Ht Hne).
    destruct token; [congruence|]. rewrite Hv.
    exists (set_user req u). now repeat split.
  - intros header token Hh Ht Hne Hv.
    rewrite (bearer_token_second _ _ _ Hh Ht Hne).
    destruct token; [congruence|]. now rewrite Hv.
  - intros Hh. unfold bearer_token. now rewrite Hh.
Qed.

Lemma includes_two (a b : jsstr) (v : jsval) :
  includes [a; b] v = true -> v = VStr a \/ v = VStr b.
Proof.
  destruct v; try discriminate. cbn [includes]. intros Hs.
  apply bool_decide_eq_true in Hs.
  apply elem_of_cons in Hs as [->|Hs]; [now left|].
  apply elem_of_cons in Hs as [->|Hs]; [now right|].
  now apply elem_of_nil in Hs.
Qed.

Lemma post_wishes_handler_cases (req : request) (s : db) :
  (status (post_wishes_handler sql_executes req s).1 = 400
   /\ (post_wishes_handler sql_executes req s).2 = s)
  \/ (status (post_wishes_handler sql_executes req s).1 = 500
      /\ (post_wishes_handler sql_executes req s).2 = s)
  \/ exists row,
       wish_id row = wishes_auto_increment s
       /\ wish_user_id row = wish_owner req
       /\ truthy (wish_name row) = true
       /\ truthy (wish_content row) = true
       /\ (wish_category row = VStr (lit "nice")
           \/ wish_category row = VStr (lit "naughty"))
       /\ (wish_is_anonymous row = VNum (num 0)
           \/ wish_is_anonymous row = VNum (num 1))
       /\ (status (post_wishes_handler sql_executes req s).1 = 500
           /\ (post_wishes_handler sql_executes req s).2 = store_wish s row
           \/ status (post_wishes_handler sql_executes req s).1 = 201
              /\ (post_wishes_handler sql_executes req s).2
                 = bump_stat (store_wish s row) "wishes_count").
Proof.
  unfold post_wishes_handler, get_default, insert_wish, upsert_stat.
  cbn [get bind].
  fold (body_field req "name") (body_field req "content")
    (body_field req "category") (body_field req "is_anonymous").
  destruct (truthy (body_field req "name")) eqn:Hname;
    [|left; now split].
  destruct (truthy (body_field req "content")) eqn:Hcontent;
    [|left; now split].
  cbn [negb orb].
  destruct (includes _ _) eqn:Hcat; [|left; now split].
  cbn [negb].
  destruct (sql_executes s (InsertWish _)) eqn:Hrow;
    [|right; left; now split].
  right. right.
  match type of Hrow with
  | sql_executes s (InsertWish ?r) = true => exists r
  end.
  split; [reflexivity|]. split; [reflexivity|].
  split; [exact Hname|]. split; [exact Hcontent|].
  split; [exact (includes_two _ _ _ Hcat)|].
  split.
  { cbn [wish_is_anonymous new_wish].
    match goal with
    | |- context [if truthy ?v then 1 else 0] => destruct (truthy v)
    end; [now right|now left]. }
  destruct (sql_executes _ (UpsertStat "wishes_count"));
    [right|left]; now split.
Qed.

(** Whatever the request, [POST /api/wishes] answers 400, 500 or 201; it
    stores nothing with a 400; what it stores is one row, well formed;
    and it answers 201 only when the row is stored and counted. It never
    touches the todos. *)
Theorem post_wishes_outcomes (req : request) (s : db) :
  wish_outcome s (post_wishes jwt_verify sql_executes req s)
  /\ todos (post_wishes jwt_verify sql_executes req s).2 = todos s.
Proof.
  unfold post_wishes, route.
  destruct (optionalAuth_next jwt_verify req) as (req' & -> & _).
  destruct (post_wishes_handler_cases req' s)
    as [[H400 Hs]|[[H500 Hs]|(row & Hid & _ & Hn & Hc & Hcat & Ha & Hres)]].
  - split; [left; now split|now rewrite Hs].
  - split; [right; left; now split|now rewrite Hs].
  - split.
    + right. right. exists row. now repeat (split; [assumption|]).
    + destruct Hres as [[_ ->]|[_ ->]]; reflexivity.
Qed.

Lemma stored_wish (s s1 : db) (row stored : wish_row) :
  s1 = store_wish s row \/ s1 = bump_stat (store_wish s row) "wishes_count" ->
  wishes s1 = wishes s ++ [stored] -> stored = row.
Proof.
  intros [->| ->]; cbn; intros Heq; apply app_inv_head in Heq;
    now injection Heq.
Qed.

(** The wish that [POST /api/wishes] stores belongs to the user whose
    token verifies, and to nobody ([user_id] is NULL) when the request
    has no header or a token that [jwt.verify] refuses. *)
Theorem post_wishes_attribution (req : request) (s : db) (stored : wish_row) :
  user req = None ->
  wishes (post_wishes jwt_verify sql_executes req s).2
  = wishes s ++ [stored] ->
  (authorization req = None -> wish_user_id stored = VNull)
  /\ (forall header token u,
        authorization req = Some header ->
        split_space header !! 1%nat = Some token -> token <> [] ->
        jwt_verify token = Some u ->
        wish_user_id stored = VNum (num (id u)))
  /\ (forall header token,
        authorization req = Some header ->
        split_space header !! 1%nat = Some token -> token <> [] ->
        jwt_verify token = None ->
        wish_user_id stored = VNull).
Proof.
  intros Hanon Hstored.
  assert (Hrow : forall req',
             post_wishes jwt_verify sql_executes req s
             = post_wishes_handler sql_executes req' s ->
             wish_user_id stored = wish_owner req').
  { intros req' Hroute. rewrite Hroute in Hstored.
    destruct (post_wishes_handler_cases req' s)
      as [[_ Hs]|[[_ Hs]|(row & _ & Hown & _ & _ & _ & _ & Hres)]].
    - rewrite Hs in Hstored. apply (f_equal length) in Hstored.
      rewrite length_app in Hstored. cbn [length] in Hstored. lia.
    - rewrite Hs in Hstored. apply (f_equal length) in Hstored.
      rewrite length_app in Hstored. cbn [length] in Hstored. lia.
    - assert (Heq : stored = row).
      { apply (stored_wish s (post_wishes_handler sql_executes req' s).2);
          [|exact Hstored].
        destruct Hres as [[_ Hres]|[_ Hres]]; [now left|now right]. }
      now rewrite Heq. }
  unfold post_wishes, route, optionalAuth in Hrow.
  split; [|split].
  - intros Hh. unfold bearer_token in Hrow. rewrite Hh in Hrow.
    rewrite (Hrow req eq_refl). unfold wish_owner. now rewrite Hanon.
  - intros header token u Hh Ht Hne Hv.
    rewrite (bearer_token_second _ _ _ Hh Ht Hne) in Hrow.
    destruct token; [congruence|]. rewrite Hv in Hrow.
    now rewrite (Hrow (set_user req u) eq_refl).
  - intros header token Hh Ht Hne Hv.
    rewrite (bearer_token_second _ _ _ Hh Ht Hne) in Hrow.
    destruct token; [congruence|]. rewrite Hv in Hrow.
    rewrite (Hrow req eq_refl). unfold wish_owner. now rewrite Hanon.
Qed.

End HandlerFacts.

Section TodoFacts.
Context `{Runtime}.
Import Server.
Variable jwt_verify : jsstr -> option identity.
Variable sql_id_eq : jsstr -> Z -> bool.
Variable sql_executes : db -> statement -> bool.

(** The state after [PATCH /api/todos/:id]: the state before, or the
    state once an update of the rows with this id has been executed, and
    this only for a user who owns a row with this id. *)
Lemma patch_todo_handler_state (req : request) (s : db) :
  (patch_todo_handler sql_id_eq sql_executes req s).2 = s
  \/ exists updates u,
       user req = Some u
       /\ select_owned sql_id_eq s (params_id req) (id u) <> []
       /\ (patch_todo_handler sql_id_eq sql_executes req s).2
          = apply_update sql_id_eq s updates (params_id req).
Proof.
  unfold patch_todo_handler, req_user_id, update_todo. cbn [get bind].
  destruct (user req) as [u|]; [|now left]. cbn [bind].
  destruct (select_owned sql_id_eq s (params_id req) (id u)) as [|r rows]
    eqn:Hown; [now left|].
  rewrite bool_decide_eq_false_2 by (intros [=]).
  destruct (defined _ && negb _); [now left|].
  destruct (bool_decide _); [now left|].
  destruct (sql_executes s (UpdateTodo _ _)); [|now left].
  right. eexists _, u. split; [reflexivity|].
  split; [rewrite Hown; discriminate|].
  reflexivity.
Qed.



(** A patch by one user leaves the todos of every other user as they
    are, when at most one row has the requested id. *)
Theorem patch_todo_isolation (req : request) (s : db) (u : identity)
    (i : nat) (r : todo_row) :
  user req = Some u ->
  id_is_key sql_id_eq s (params_id req) ->
  todos s !! i = Some r -> todo_user_id r <> id u ->
  todos (patch_todo_handler sql_id_eq sql_executes req s).2 !! i = Some r.
Proof.
  intros Hu Hkey Hi Hother.
  destruct (patch_todo_handler_state req s)
    as [->|(updates & u' & Hu' & Hown & ->)]; [exact Hi|].
  rewrite Hu in Hu'. injection Hu' as <-.
  unfold apply_update. cbn [todos set_todos].
  rewrite list_lookup_fmap, Hi. cbn [fmap option_fmap option_map].
  destruct (sql_id_eq (params_id req) (todo_id r)) eqn:Hid; [|reflexivity].
  exfalso. destruct (select_owned sql_id_eq s (params_id req) (id u))
    as [|mine rows] eqn:Hsel; [congruence|].
  assert (Hmine : mine ∈ select_owned sql_id_eq s (params_id req) (id u))
    by (rewrite Hsel; left).
  unfold select_owned in Hmine.
  apply list_elem_of_filter in Hmine as [[Hmid Hmown] Hmin].
  assert (Hr : r ∈ todos s) by (eapply list_elem_of_lookup_2; exact Hi).
  rewrite (Hkey r mine Hr Hmin Hid Hmid) in Hother. congruence.
Qed.

Lemma select_after_delete (s : db) (id : jsstr) (user_id : Z) :
  select_owned sql_id_eq (apply_delete sql_id_eq s id) id user_id = [].
Proof.
  unfold select_owned, apply_delete. cbn [todos set_todos].
  induction (todos s) as [|r rows IH]; [reflexivity|].
  rewrite filter_cons. destruct (decide _) as [Hno|Hyes].
  - rewrite filter_cons. destruct (decide _) as [[Hid _]|_]; [|exact IH].
    congruence.
  - exact IH.
Qed.

(** Once a todo has been deleted, a further PATCH or DELETE of the same
    id is answered 404 and writes nothing, whoever asks; and the delete
    leaves every row with another id in place. *)
Theorem delete_todo_then_not_found (req again : request) (s : db)
    (u v : identity) :
  user req = Some u ->
  select_owned sql_id_eq s (params_id req) (id u) <> [] ->
  sql_executes s (DeleteTodo (params_id req)) = true ->
  user again = Some v -> params_id again = params_id req ->
  exists s1,
    delete_todo_handler sql_id_eq sql_executes req s
    = ({| status := 200;
          json := obj [("message", VStr (lit "Todo deleted successfully"))]
       |}, s1)
    /\ (forall r, r ∈ todos s1
          <-> r ∈ todos s /\ sql_id_eq (params_id req) (todo_id r) = false)
    /\ patch_todo_handler sql_id_eq sql_executes again s1 = (not_found, s1)
    /\ delete_todo_handler sql_id_eq sql_executes again s1 = (not_found, s1).
Proof.
  intros Hu Hown Hexec Hv Hid.
  exists (apply_delete sql_id_eq s (params_id req)). split; [|split; [|split]].
  - unfold delete_todo_handler, req_user_id, delete_todo_row. rewrite Hu.
    cbn [bind].
    destruct (select_owned sql_id_eq s (params_id req) (id u)) as [|? ?];
      [congruence|].
    rewrite bool_decide_eq_false_2 by (intros [=]). now rewrite Hexec.
  - intros r. unfold apply_delete. cbn [todos set_todos].
    rewrite list_elem_of_filter. tauto.
  - unfold patch_todo_handler, req_user_id. rewrite Hv, Hid.
    cbn [get bind]. now rewrite select_after_delete.
  - unfold delete_todo_handler, req_user_id. rewrite Hv, Hid.
    cbn [bind]. now rewrite select_after_delete.
Qed.

End TodoFacts.

Section VisitFacts.
Import Server Visits.
Variable sql_executes : db -> statement -> bool.

Lemma bump_stat_counts (s : db) (counter other : string) :
  counter_today (bump_stat s counter) counter = counter_today s counter + 1
  /\ (other <> counter ->
      counter_today (bump_stat s counter) other = counter_today s other)
  /\ curdate (bump_stat s counter) = curdate s
  /\ wishes (bump_stat s counter) = wishes s
  /\ todos (bump_stat s counter) = todos s.
Proof.
  unfold counter_today, bump_stat. cbn [site_stats curdate set_site_stats].
  split; [|split; [|now repeat split]].
  - rewrite lookup_insert_eq. simpl. now rewrite lookup_insert_eq.
  - intros Hne. rewrite lookup_insert_eq. simpl.
    now rewrite lookup_insert_ne.
Qed.

(** The requests [POST /api/stats/visit] that the engine executes count:
    after [n] of them the visit counter of the day is [n] higher, and the
    other counters, the wishes and the todos are as before. *)
Theorem visits_are_counted (n : nat) (req : request) (s : db)
    (other : string) :
  (forall s', sql_executes s' (UpsertStat "visit_count") = true) ->
  other <> "visit_count" ->
  counter_today
    (Nat.iter n (fun s' => (post_stats_visit sql_executes req s').2) s)
    "visit_count"
  = counter_today s "visit_count" + Z.of_nat n
  /\ counter_today
       (Nat.iter n (fun s' => (post_stats_visit sql_executes req s').2) s)
       other
     = counter_today s other
  /\ wishes (Nat.iter n (fun s' => (post_stats_visit sql_executes req s').2) s)
     = wishes s
  /\ todos (Nat.iter n (fun s' => (post_stats_visit sql_executes req s').2) s)
     = todos s.
Proof.
  intros Hexec Hother. induction n as [|n IH].
  - cbn [Nat.iter nat_rect]. repeat split. lia.
  - rewrite Nat.iter_succ. destruct IH as (IHc & IHo & IHw & IHt).
    set (before := Nat.iter n _ s) in *.
    unfold post_stats_visit, upsert_stat. rewrite Hexec. cbn [snd].
    destruct (bump_stat_counts before "visit_count" other)
      as (Hc & Ho & _ & Hw & Ht).
    rewrite Hc, (Ho Hother), Hw, Ht, IHc, IHo, IHw, IHt.
    repeat split. lia.
Qed.

End VisitFacts.

(** ** The further properties at sample inputs *)

Section FurtherExamples.
Import Server.

Lemma truncate_bounded_witness :
  Z.of_nat (length (truncate (VStr (lit "hello world")) 5)) <= 5
  /\ Forall (fun c => is_control c = false)
            (truncate (VStr (lit "hello world")) 5).
Proof. apply (truncate_bounded (VStr (lit "hello world")) 5). lia. Defined.


Lemma clamp_stable_witness :
  clamp (H := Sample.runtime) (VNum (num 100)) (num 1) (num 100)
  = inr (num 100).
Proof.
  apply (clamp_stable (H := Sample.runtime) (VNum (num 150)) (num 1)
           (num 100) (num 100)).
  vm_compute. reflexivity.
Defined.

Lemma toBool_truthiness_witness :
  toBool (H := Sample.runtime) (VDate (num 0)) = truthy (VDate (num 0)).
Proof.
  apply (proj2 (proj2 (toBool_truthiness (H := Sample.runtime)
                         (VDate (num 0)))));
    discriminate.
Defined.

Lemma createPaginationMeta_empty_witness :
  paginationMeta.totalPages (createPaginationMeta (num 1) (num 20) (num 0))
  = num 0
  /\ paginationMeta.hasNextPage
       (createPaginationMeta (num 1) (num 20) (num 0)) = false
  /\ paginationMeta.totalPages (createPaginationMeta (num 1) (num 0) (num 0))
     = NaN.
Proof.
  apply (createPaginationMeta_empty (num 1) (num 20)); reflexivity.
Defined.

Lemma input_wish_well_formed_witness :
  exists name content category anonymous,
    inputTransformers.wish (H := Sample.runtime)
      (VObj (body Sample.wish_invalid_category))
    = inr (obj [("name", VStr name); ("content", VStr content);
                ("category", VStr category);
                ("is_anonymous", VBool anonymous)])
    /\ Z.of_nat (length name) <= 100
    /\ Z.of_nat (length content) <= 1000
    /\ category ∈ [lit "nice"; lit "naughty"].
Proof.
  apply (input_wish_well_formed (H := Sample.runtime)
           (VObj (body Sample.wish_invalid_category)));
    discriminate.
Defined.

Lemma input_todo_fields_witness :
  (exists title,
      prop (obj [("title", VStr (lit "Buy gifts"));
                 ("priority", VStr (lit "medium"));
                 ("due_date", VStr (lit "2025-12-24"))]) "title"
      = VStr title
      /\ Z.of_nat (length title) <= 255)
  /\ prop (obj [("title", VStr (lit "Buy gifts"));
                ("priority", VStr (lit "medium"));
                ("due_date", VStr (lit "2025-12-24"))]) "due_date"
     = prop Fixtures.todo_body "due_date".
Proof.
  pose proof (input_todo_fields (H := Sample.runtime) Fixtures.todo_body
                (obj [("title", VStr (lit "Buy gifts"));
                      ("priority", VStr (lit "medium"));
                      ("due_date", VStr (lit "2025-12-24"))])
                eq_refl) as (Htitle & _ & _ & _ & Hdue).
  split; [exact Htitle|exact Hdue].
Defined.

Lemma userRegistration_password_untouched_witness :
  prop (obj [("username", VStr (lit "Santa"));
             ("email", VStr (lit "santa@northpole.com"));
             ("password", VStr (lit " s3cret "))]) "password"
  = prop Fixtures.registration "password"
  /\ exists username,
       prop (obj [("username", VStr (lit "Santa"));
                  ("email", VStr (lit "santa@northpole.com"));
                  ("password", VStr (lit " s3cret "))]) "username"
       = VStr username
       /\ Z.of_nat (length username) <= 50
       /\ (forall c, c ∈ username -> is_control c = false).
Proof.
  apply (userRegistration_password_untouched (H := Sample.runtime)
           Fixtures.registration).
  reflexivity.
Defined.

Lemma input_galleryImage_category_witness :
  (exists category,
      prop (obj [("label", VStr (lit "Tree")); ("description", VNull);
                 ("category", VStr (lit "general"))]) "category"
      = VStr category
      /\ Z.of_nat (length category) <= 50
      /\ (truthy (prop Fixtures.image_body "category") = false ->
          category = lit "general"))
  /\ (prop (obj [("label", VStr (lit "Tree")); ("description", VNull);
                 ("category", VStr (lit "general"))]) "label" = VNull
      \/ exists label,
           prop (obj [("label", VStr (lit "Tree")); ("description", VNull);
                      ("category", VStr (lit "general"))]) "label"
           = VStr label
           /\ Z.of_nat (length label) <= 100).
Proof.
  apply (input_galleryImage_category Fixtures.image_body).
  reflexivity.
Defined.

Lemma output_dates_and_flags_witness :
  exists shaped flag,
    outputTransformers.wish (H := Sample.runtime) Sample.user_record
    = inr shaped
    /\ prop shaped "is_anonymous" = VBool flag.
Proof.
  apply (proj1 (proj2 (output_dates_and_flags (H := Sample.runtime)
                         Sample.user_record eq_refl))).
Defined.

Lemma required_accepts_blank_witness :
  validators.required (VStr (lit "  ")) (lit "name") = inr true
  /\ sanitize (VStr (lit "  ")) = []
  /\ validators.required (VStr (sanitize (VStr (lit "  ")))) (lit "name")
     = inl (Error (lit "name" ++ lit " is required")).
Proof.
  apply (required_accepts_blank (lit "  ") (lit "name"));
    [discriminate|].
  repeat (apply List.Forall_cons; [reflexivity|]). apply List.Forall_nil.
Defined.

Lemma enum_agrees_with_wish_shaper_witness :
  exists shaped,
    inputTransformers.wish (H := Sample.runtime)
      (VObj (body Sample.wish_invalid_category)) = inr shaped
    /\ (validators.enum (prop (VObj (body Sample.wish_invalid_category))
                           "category")
          [lit "nice"; lit "naughty"] (lit "category") = inr true
        /\ prop shaped "category"
           = prop (VObj (body Sample.wish_invalid_category)) "category"
        \/ validators.enum (prop (VObj (body Sample.wish_invalid_category))
                              "category")
             [lit "nice"; lit "naughty"] (lit "category")
           = inl (Error (lit "category"
                         ++ lit " must be one of: nice, naughty"))
           /\ prop shaped "category" = VStr (lit "nice")).
Proof.
  apply (enum_agrees_with_wish_shaper (H := Sample.runtime)
           (VObj (body Sample.wish_invalid_category)) (lit "category"));
    discriminate.
Defined.

Lemma optionalAuth_never_rejects_witness :
  (exists req',
      route (optionalAuth Sample.jwt_verify) Sample.handler
        (Sample.with_header (Some (lit "Bearer token.of.bob"))) Sample.store
      = Sample.handler req' Sample.store
      /\ user req' = Some Sample.bob /\ body req' = ∅
      /\ params_id req' = lit "7" /\ query req' = ∅)
  /\ route (optionalAuth Sample.jwt_verify) Sample.handler
       (Sample.with_header (Some (lit "Bearer forged.token"))) Sample.store
     = Sample.handler (Sample.with_header (Some (lit "Bearer forged.token")))
         Sample.store
  /\ route (optionalAuth Sample.jwt_verify) Sample.handler
       (Sample.with_header None) Sample.store
     = Sample.handler (Sample.with_header None) Sample.store.
Proof.
  split; [|split].
  - apply (proj1 (optionalAuth_never_rejects Sample.jwt_verify
                    Sample.handler
                    (Sample.with_header (Some (lit "Bearer token.of.bob")))
                    Sample.store)
             (lit "Bearer token.of.bob") (lit "token.of.bob") Sample.bob);
      [reflexivity|reflexivity|discriminate|reflexivity].
  - apply (proj1 (proj2 (optionalAuth_never_rejects Sample.jwt_verify
                           Sample.handler
                           (Sample.with_header
                              (Some (lit "Bearer forged.token")))
                           Sample.store))
             (lit "Bearer forged.token") (lit "forged.token"));
      [reflexivity|reflexivity|discriminate|reflexivity].
  - apply (optionalAuth_never_rejects Sample.jwt_verify Sample.handler
             (Sample.with_header None) Sample.store).
    reflexivity.
Defined.

Lemma post_wishes_attribution_witness :
  wish_user_id
    (new_wish Sample.store (VNum (num 2)) (VStr (lit "Santa"))
       (VStr (lit "A gift")) (VStr (lit "nice")) (VNum (num 0)))
  = VNum (num (id Sample.bob)).
Proof.
  apply (proj1 (proj2 (post_wishes_attribution (H := Sample.runtime)
                         Sample.jwt_verify Sample.sql_executes
                         Sample.wish_without_category Sample.store
                         (new_wish Sample.store (VNum (num 2))
                            (VStr (lit "Santa")) (VStr (lit "A gift"))
                            (VStr (lit "nice")) (VNum (num 0)))
                         eq_refl eq_refl))
           (lit "Bearer token.of.bob") (lit "token.of.bob") Sample.bob);
    [reflexivity|reflexivity|discriminate|reflexivity].
Defined.

Lemma two_todos_key :
  id_is_key Sample.sql_id_eq Fixtures.two_todos
    (params_id Fixtures.patch_8_as_bob).
Proof.
  intros r1 r2 H1 H2.
  apply elem_of_cons in H1 as [->|H1]; [discriminate|].
  apply list_elem_of_singleton in H1 as ->.
  apply elem_of_cons in H2 as [->|H2]; [discriminate|].
  now apply list_elem_of_singleton in H2 as ->.
Defined.

Lemma patch_todo_isolation_witness :
  todos (patch_todo_handler Sample.sql_id_eq Sample.sql_executes
           Fixtures.patch_8_as_bob Fixtures.two_todos).2 !! 0%nat
  = Some {| todo_id := 7; todo_user_id := 1;
            todo_cols := {[ "title" := VStr (lit "Buy gifts") ]} |}.
Proof.
  apply (patch_todo_isolation Sample.sql_id_eq Sample.sql_executes
           Fixtures.patch_8_as_bob Fixtures.two_todos Sample.bob 0%nat).
  - reflexivity.
  - exact two_todos_key.
  - reflexivity.
  - discriminate.
Defined.

Lemma delete_todo_then_not_found_witness :
  exists s1,
    delete_todo_handler Sample.sql_id_eq Sample.sql_executes
      Fixtures.delete_7_as_alice Sample.store
    = ({| status := 200;
          json := obj [("message", VStr (lit "Todo deleted successfully"))]
       |}, s1)
    /\ (forall r, r ∈ todos s1
          <-> r ∈ todos Sample.store
              /\ Sample.sql_id_eq (params_id Fixtures.delete_7_as_alice)
                   (todo_id r) = false)
    /\ patch_todo_handler Sample.sql_id_eq Sample.sql_executes
         Sample.patch_as_bob s1 = (not_found, s1)
    /\ delete_todo_handler Sample.sql_id_eq Sample.sql_executes
         Sample.patch_as_bob s1 = (not_found, s1).
Proof.
  apply (delete_todo_then_not_found Sample.sql_id_eq Sample.sql_executes
           Fixtures.delete_7_as_alice Sample.patch_as_bob Sample.store
           Sample.alice Sample.bob);
    [reflexivity|discriminate|reflexivity|reflexivity|reflexivity].
Defined.

Lemma visits_are_counted_witness :
  counter_today
    (Nat.iter 3
       (fun s' => (Visits.post_stats_visit Sample.sql_executes
                     (Sample.with_header None) s').2)
       Sample.store)
    "visit_count"
  = counter_today Sample.store "visit_count" + Z.of_nat 3
  /\ counter_today
       (Nat.iter 3
          (fun s' => (Visits.post_stats_visit Sample.sql_executes
                        (Sample.with_header None) s').2)
          Sample.store)
       "wishes_count"
     = counter_today Sample.store "wishes_count"
  /\ wishes
       (Nat.iter 3
          (fun s' => (Visits.post_stats_visit Sample.sql_executes
                        (Sample.with_header None) s').2)
          Sample.store)
     = wishes Sample.store
  /\ todos
       (Nat.iter 3
          (fun s' => (Visits.post_stats_visit Sample.sql_executes
                        (Sample.with_header None) s').2)
          Sample.store)
     = todos Sample.store.
Proof.
  apply (visits_are_counted Sample.sql_executes 3 (Sample.with_header None)
           Sample.store "wishes_count"); [reflexivity|discriminate].
Defined.

Lemma patch_todo_bad_priority_witness :
  patch_todo_handler Sample.sql_id_eq Sample.sql_executes
    Fixtures.patch_7_urgent Sample.store
  = (bad_priority, Sample.store).
Proof.
  apply (patch_todo_bad_priority Sample.sql_id_eq Sample.sql_executes
           Fixtures.patch_7_urgent Sample.store Sample.alice);
    [reflexivity|discriminate|reflexivity|reflexivity].
Defined.

Lemma delete_todo_not_owned_witness :
  delete_todo_handler Sample.sql_id_eq Sample.sql_executes
    Fixtures.delete_7_as_bob Sample.store
  = (not_found, Sample.store).
Proof.
  apply (delete_todo_not_owned Sample.sql_id_eq Sample.sql_executes
           Fixtures.delete_7_as_bob Sample.store Sample.bob).
  - reflexivity.
  - exact sample_todo_not_bobs.
Defined.

End FurtherExamples.
